(** * orb: OpenTelemetry instrumentation for RabbitMQ (amqp091-go)

    A shallow embedding of the packages [internal] and [instrumentation]
    and the properties of their header carrier, attribute builder,
    propagator, publisher and consumer.

    Conventions of the embedding:
    - a Go map that may be [nil] is an [option] of a [gmap]; writing to
      the [nil] map panics, reading it yields the zero value;
    - a Go [error] that may be [nil] is an [option error];
    - a panic is the [Panic] result of the [Result] type;
    - calls into the broker client, the tracing SDK and the user's handler
      are recorded, in order and with what they answered, in a log of
      [Event]s; the answers are given by the records [Acknowledger],
      [Channel] and [Tracer] and by the handler. *)

From Stdlib Require Import Ascii String.
From stdpp Require Import gmap strings list fin_maps.

Local Open Scope string_scope.
Local Open Scope list_scope.

(** ** Results of code that may panic *)

Inductive Result (A : Type) : Type :=
| Ok (a : A)
| Panic (msg : string).
Arguments Ok {A} a.
Arguments Panic {A} msg.

Definition rbind {A B} (r : Result A) (f : A -> Result B) : Result B :=
  match r with
  | Ok a => f a
  | Panic msg => Panic msg
  end.

(** ** Go errors *)

(** An error value: a plain one, or one made by [fmt.Errorf] with the
    verb [%w], which keeps the error it wraps. *)
Inductive error : Type :=
| errorString (msg : string)
| wrapError (msg : string) (inner : error).

Definition Error (e : error) : string :=
  match e with
  | errorString msg => msg
  | wrapError msg _ => msg
  end.

(** [fmt.Errorf(prefix + "%w", e)] *)
Definition Errorf_w (prefix : string) (e : error) : error :=
  wrapError (prefix +:+ Error e) e.

(** ** amqp091: header tables, publishings, deliveries *)

Module amqp091.

(** The dynamic type of a header entry, an [interface{}] in Go.  The
    carrier only tells strings from everything else. *)
Inductive FieldValue : Type :=
| VString (s : string)
| VBool (b : bool)
| VInt (z : Z)
| VBytes (bs : list Byte.byte)
| VNil.

(** [amqp091.Table], a [map[string]interface{}]; [None] is the nil map. *)
Abbreviation Table := (option (gmap string FieldValue)).

(** [make(amqp091.Table)] *)
Definition makeTable : Table := Some ∅.

Module Publishing.
Record t : Type := mk {
  Headers : Table;
  ContentType : string;
  CorrelationId : string;
  MessageId : string;
  Body : list Byte.byte
}.
Definition withHeaders (h : Table) (p : t) : t :=
  mk h (ContentType p) (CorrelationId p) (MessageId p) (Body p).
End Publishing.

(** What the broker answers to an acknowledgment. *)
Record Acknowledger : Type := {
  ackAnswer : N -> bool -> option error;
  nackAnswer : N -> bool -> bool -> option error
}.

Module Delivery.
Record t : Type := mk {
  acknowledger : option Acknowledger;
  Headers : Table;
  CorrelationId : string;
  MessageId : string;
  DeliveryTag : N;
  RoutingKey : string;
  Body : list Byte.byte
}.
Definition withHeaders (h : Table) (d : t) : t :=
  mk (acknowledger d) h (CorrelationId d) (MessageId d) (DeliveryTag d)
     (RoutingKey d) (Body d).
End Delivery.

Definition errDeliveryNotInitialized : error :=
  errorString "delivery not initialized".

End amqp091.

Import amqp091.

(** ** OpenTelemetry: contexts, spans, carriers, propagators *)

Module otel.

(** Identifiers are kept in their textual form: 32 and 16 lower-case
    hexadecimal digits. *)
Record SpanContext : Type := {
  TraceID : string;
  SpanID : string;
  Sampled : bool;
  Remote : bool
}.

(** [context.Context]: the span it carries and its other values. *)
Record Context : Type := {
  ctxSpan : SpanContext;
  ctxValues : list (string * string)
}.

Definition SpanContextFromContext (ctx : Context) : SpanContext := ctxSpan ctx.

Definition ContextWithRemoteSpanContext (parent : Context) (sc : SpanContext)
  : Context :=
  {| ctxSpan := {| TraceID := TraceID sc; SpanID := SpanID sc;
                   Sampled := Sampled sc; Remote := true |};
     ctxValues := ctxValues parent |}.

Definition emptySpanContext : SpanContext :=
  {| TraceID := ""; SpanID := ""; Sampled := false; Remote := false |}.

(** [context.Background()] *)
Definition Background : Context :=
  {| ctxSpan := emptySpanContext; ctxValues := [] |}.

Definition isLowerHex (c : ascii) : bool :=
  let n := nat_of_ascii c in
  (Nat.leb 48 n && Nat.leb n 57) || (Nat.leb 97 n && Nat.leb n 102).

Fixpoint allChars (f : ascii -> bool) (s : string) : bool :=
  match s with
  | EmptyString => true
  | String c s' => f c && allChars f s'
  end.

Definition isZeroChar (c : ascii) : bool := Nat.eqb (nat_of_ascii c) 48.

Definition validID (len : nat) (s : string) : bool :=
  Nat.eqb (String.length s) len && allChars isLowerHex s
  && negb (allChars isZeroChar s).

(** [SpanContext.IsValid]: both identifiers are well formed and non-zero. *)
Definition IsValid (sc : SpanContext) : bool :=
  validID 32 (TraceID sc) && validID 16 (SpanID sc).

(** The interface [propagation.TextMapCarrier]. *)
Record TextMapCarrier : Type := {
  carrier :> Type;
  cGet : carrier -> string -> string;
  cSet : carrier -> string -> string -> Result carrier;
  cKeys : carrier -> list string
}.

(** What a propagator does with a carrier it is handed: it can only
    call the three methods of the interface. *)
Inductive CarrierProg (A : Type) : Type :=
| Ret (a : A)
| CallGet (key : string) (k : string -> CarrierProg A)
| CallSet (key value : string) (k : CarrierProg A)
| CallKeys (k : list string -> CarrierProg A).
Arguments Ret {A} a.
Arguments CallGet {A} key k.
Arguments CallSet {A} key value k.
Arguments CallKeys {A} k.

Fixpoint run {C : TextMapCarrier} {A} (p : CarrierProg A) (c : C)
  : Result (A * C) :=
  match p with
  | Ret a => Ok (a, c)
  | CallGet key k => run (k (cGet C c key)) c
  | CallSet key value k =>
      match cSet C c key value with
      | Ok c' => run k c'
      | Panic msg => Panic msg
      end
  | CallKeys k => run (k (cKeys C c)) c
  end.

(** The keys a run of the program sets, in order. *)
Fixpoint written {C : TextMapCarrier} {A} (p : CarrierProg A) (c : C)
  : list string :=
  match p with
  | Ret _ => []
  | CallGet key k => written (k (cGet C c key)) c
  | CallSet key value k =>
      match cSet C c key value with
      | Ok c' => key :: written k c'
      | Panic _ => []
      end
  | CallKeys k => written (k (cKeys C c)) c
  end.

(** The interface [propagation.TextMapPropagator]. *)
Record TextMapPropagator : Type := {
  tmpInject : Context -> CarrierProg unit;
  tmpExtract : Context -> CarrierProg Context;
  tmpFields : list string
}.


(** The W3C Trace Context propagator: one [traceparent] entry of the
    form [00-<trace id>-<span id>-<flags>]. *)
Definition traceparentHeader : string := "traceparent".

Definition encodeTraceparent (sc : SpanContext) : string :=
  "00-" +:+ TraceID sc +:+ "-" +:+ SpanID sc +:+ "-"
        +:+ (if Sampled sc then "01" else "00").

Definition decodeTraceparent (h : string) : option SpanContext :=
  if negb (Nat.eqb (String.length h) 55) then None else
  if negb (String.eqb (substring 0 3 h) "00-") then None else
  if negb (String.eqb (substring 35 1 h) "-") then None else
  if negb (String.eqb (substring 52 1 h) "-") then None else
  let sc := {| TraceID := substring 3 32 h;
               SpanID := substring 36 16 h;
               Sampled := String.eqb (substring 53 2 h) "01";
               Remote := true |} in
  if IsValid sc then Some sc else None.

Definition TraceContext : TextMapPropagator :=
  {| tmpInject := fun ctx =>
       let sc := SpanContextFromContext ctx in
       if IsValid sc
       then CallSet traceparentHeader (encodeTraceparent sc) (Ret tt)
       else Ret tt;
     tmpExtract := fun ctx =>
       CallGet traceparentHeader (fun h =>
         match decodeTraceparent h with
         | Some sc => Ret (ContextWithRemoteSpanContext ctx sc)
         | None => Ret ctx
         end);
     tmpFields := [traceparentHeader; "tracestate"] |}.

Inductive SpanKind : Type :=
| SpanKindInternal | SpanKindServer | SpanKindClient
| SpanKindProducer | SpanKindConsumer.

(** [attribute.KeyValue] as built by [attribute.String]. *)
Record KeyValue : Type := String_ { Key : string; Value : string }.

Inductive SpanStartOption : Type :=
| WithSpanKind (k : SpanKind)
| WithAttributes (kvs : list KeyValue).

Inductive Code : Type := Unset | CodeError | CodeOk.

(** A span is known by the span context the tracer gave it. *)
Abbreviation Span := SpanContext.

(** [trace.Tracer]: [Start] derives a context and a span. *)
Record Tracer : Type := {
  Start : Context -> string -> list SpanStartOption -> Context * Span
}.

(** The process-wide state of the SDK that the library reads. *)
Record Globals : Type := {
  GetTextMapPropagator : TextMapPropagator;
  GetTracer : string -> Tracer
}.

End otel.

Import otel.

(** ** The log of calls into the collaborators *)

Inductive Event : Type :=
| EvSpanStart (parent : Context) (name : string) (opts : list SpanStartOption)
              (derived : Context) (span : SpanContext)
| EvRecordError (span : SpanContext) (err : error)
| EvSetStatus (span : SpanContext) (code : Code) (description : string)
| EvSpanEnd (span : SpanContext)
| EvHandler (ctx : Context) (delivery : Delivery.t) (answer : option error)
| EvAck (tag : N) (multiple : bool) (answer : option error)
| EvNack (tag : N) (multiple requeue : bool) (answer : option error)
| EvChannelPublish (exchange key : string) (mandatory immediate : bool)
                   (msg : Publishing.t) (answer : option error)
| EvChannelPublishWithDeferredConfirmWithContext
    (ctx : Context) (exchange key : string) (mandatory immediate : bool)
    (msg : Publishing.t) (answer : option error).

(** A computation that logs events and may panic. *)
Definition M (A : Type) : Type := list Event -> Result (A * list Event).

Definition ret {A} (a : A) : M A := fun log => Ok (a, log).

Definition bind {A B} (m : M A) (f : A -> M B) : M B :=
  fun log =>
    match m log with
    | Ok (a, log') => f a log'
    | Panic msg => Panic msg
    end.

Definition emit (e : Event) : M unit := fun log => Ok (tt, log ++ [e]).

Definition lift {A} (r : Result A) : M A :=
  fun log =>
    match r with
    | Ok a => Ok (a, log)
    | Panic msg => Panic msg
    end.

Declare Scope m_scope.
Delimit Scope m_scope with M.
Notation "'let*' x ':=' m 'in' k" := (bind m (fun x => k))
  (at level 10, x name, m at level 100, k at level 200) : m_scope.
Notation "'do' m 'then' k" := (bind m (fun _ => k))
  (at level 10, m at level 100, k at level 200) : m_scope.

(** [Delivery.Ack] and [Delivery.Nack] of amqp091: the call is logged, the
    answer is the acknowledger's. *)
Definition Delivery_Ack (d : Delivery.t) (multiple : bool) : M (option error) :=
  let answer :=
    match Delivery.acknowledger d with
    | None => Some errDeliveryNotInitialized
    | Some a => ackAnswer a (Delivery.DeliveryTag d) multiple
    end in
  (do emit (EvAck (Delivery.DeliveryTag d) multiple answer) then ret answer)%M.

Definition Delivery_Nack (d : Delivery.t) (multiple requeue : bool)
  : M (option error) :=
  let answer :=
    match Delivery.acknowledger d with
    | None => Some errDeliveryNotInitialized
    | Some a => nackAnswer a (Delivery.DeliveryTag d) multiple requeue
    end in
  (do emit (EvNack (Delivery.DeliveryTag d) multiple requeue answer) then
   ret answer)%M.

(** [amqp091.DeferredConfirmation], known by its delivery tag. *)
Definition DeferredConfirmation : Type := N.

(** [amqp091.Channel]: what the broker client answers to each call.  A
    consume stream is the list of deliveries it yields before it closes. *)
Record Channel : Type := {
  publishAnswer :
    string -> string -> bool -> bool -> Publishing.t -> option error;
  publishWithDeferredConfirmAnswer :
    Context -> string -> string -> bool -> bool -> Publishing.t ->
    option DeferredConfirmation * option error;
  consumeAnswer :
    Context -> string -> string -> bool -> bool -> bool -> bool -> Table ->
    list Delivery.t + error
}.

(** [Channel.Publish], the variant of the client that takes no context. *)
Definition Channel_Publish (ch : Channel) (exchange key : string)
           (mandatory immediate : bool) (msg : Publishing.t) : M (option error) :=
  let answer := publishAnswer ch exchange key mandatory immediate msg in
  (do emit (EvChannelPublish exchange key mandatory immediate msg answer) then
   ret answer)%M.

Definition Channel_PublishWithDeferredConfirmWithContext
           (ch : Channel) (ctx : Context) (exchange key : string)
           (mandatory immediate : bool) (msg : Publishing.t)
  : M (option DeferredConfirmation * option error) :=
  let answer :=
    publishWithDeferredConfirmAnswer ch ctx exchange key mandatory immediate msg in
  (do emit (EvChannelPublishWithDeferredConfirmWithContext
              ctx exchange key mandatory immediate msg (snd answer)) then
   ret answer)%M.

(** Calling through a nil function value or a nil interface panics. *)
Definition deref {A} (o : option A) : M A :=
  match o with
  | Some a => ret a
  | None => lift (Panic "invalid memory address or nil pointer dereference")
  end.

(** ** Package internal *)

Module internal.

Definition TracerName := "github.com/startower-observability/orb".
Definition MessagingSystem := "messaging.system".
Definition MessagingDestinationKind := "messaging.destination_kind".
Definition MessagingDestination := "messaging.destination".
Definition MessagingRabbitMQRoutingKey := "messaging.rabbitmq.routing_key".
Definition MessagingOperation := "messaging.operation".
Definition MessagingMessageID := "messaging.message_id".
Definition MessagingConversationID := "messaging.conversation_id".
Definition SystemRabbitMQ := "rabbitmq".
Definition DestinationKindQueue := "queue".
Definition DestinationKindTopic := "topic".
Definition OperationPublish := "publish".
Definition OperationReceive := "receive".
Definition OperationProcess := "process".

(** [type HeaderCarrier amqp091.Table] and its three methods. *)

Definition HeaderCarrier_Get (hc : Table) (key : string) : string :=
  match hc with
  | Some m =>
      match m !! key with
      | Some (VString str) => str
      | _ => ""
      end
  | None => ""
  end.

Definition HeaderCarrier_Set (hc : Table) (key value : string) : Result Table :=
  match hc with
  | Some m => Ok (Some (<[key := VString value]> m))
  | None => Panic "assignment to entry in nil map"
  end.

(** The order of a [range] over a map is unspecified; the order of
    [map_to_list] stands for it. *)
Definition HeaderCarrier_Keys (hc : Table) : list string :=
  match hc with
  | Some m => (map_to_list m).*1
  | None => []
  end.

Definition HeaderCarrier : TextMapCarrier :=
  {| carrier := Table;
     cGet := HeaderCarrier_Get;
     cSet := HeaderCarrier_Set;
     cKeys := HeaderCarrier_Keys |}.

Definition nonEmpty (s : string) : bool := negb (String.eqb s "").

Definition GetCommonAttributes (exchange routingKey : string) : list KeyValue :=
  let attrs := [String_ MessagingSystem SystemRabbitMQ] in
  let attrs :=
    if nonEmpty exchange then
      let attrs := attrs ++ [String_ MessagingDestination exchange] in
      attrs ++ [String_ MessagingDestinationKind DestinationKindTopic]
    else
      let attrs := attrs ++ [String_ MessagingDestinationKind DestinationKindQueue] in
      if nonEmpty routingKey
      then attrs ++ [String_ MessagingDestination routingKey]
      else attrs in
  let attrs :=
    if nonEmpty routingKey
    then attrs ++ [String_ MessagingRabbitMQRoutingKey routingKey]
    else attrs in
  attrs.

Definition GetPublishAttributes (exchange routingKey : string)
           (msg : Publishing.t) : list KeyValue :=
  let attrs := GetCommonAttributes exchange routingKey in
  let attrs := attrs ++ [String_ MessagingOperation OperationPublish] in
  let attrs :=
    if nonEmpty (Publishing.MessageId msg)
    then attrs ++ [String_ MessagingMessageID (Publishing.MessageId msg)]
    else attrs in
  let attrs :=
    if nonEmpty (Publishing.CorrelationId msg)
    then attrs ++ [String_ MessagingConversationID (Publishing.CorrelationId msg)]
    else attrs in
  attrs.

Definition GetConsumeAttributes (queueName : string) (delivery : Delivery.t)
  : list KeyValue :=
  let attrs := [String_ MessagingSystem SystemRabbitMQ;
                String_ MessagingDestinationKind DestinationKindQueue;
                String_ MessagingOperation OperationReceive] in
  let attrs :=
    if nonEmpty queueName
    then attrs ++ [String_ MessagingDestination queueName]
    else attrs in
  let attrs :=
    if nonEmpty (Delivery.RoutingKey delivery)
    then attrs ++ [String_ MessagingRabbitMQRoutingKey (Delivery.RoutingKey delivery)]
    else attrs in
  let attrs :=
    if nonEmpty (Delivery.MessageId delivery)
    then attrs ++ [String_ MessagingMessageID (Delivery.MessageId delivery)]
    else attrs in
  let attrs :=
    if nonEmpty (Delivery.CorrelationId delivery)
    then attrs ++ [String_ MessagingConversationID (Delivery.CorrelationId delivery)]
    else attrs in
  attrs.

Section WithGlobals.
Variable G : Globals.

(** The carrier is mutated in place; the table after the call is
    returned. *)
Definition InjectContext (ctx : Context) (headers : Table) : Result Table :=
  match headers with
  | None => Ok headers
  | Some _ =>
      rbind (run (C := HeaderCarrier) (tmpInject (GetTextMapPropagator G) ctx) headers)
            (fun r => Ok (snd r))
  end.

(** Returns the context together with the table as the propagator
    left it. *)
Definition ExtractContext (ctx : Context) (headers : Table)
  : Result (Context * Table) :=
  match headers with
  | None => Ok (ctx, headers)
  | Some _ =>
      run (C := HeaderCarrier) (tmpExtract (GetTextMapPropagator G) ctx) headers
  end.
End WithGlobals.

(** [span] is [None] for a nil span. *)
Definition SafeSetSpanStatus (span : option SpanContext) (err : option error)
  : M unit :=
  match span with
  | None => ret tt
  | Some sp =>
      match err with
      | Some e =>
          (do emit (EvRecordError sp e) then
           emit (EvSetStatus sp CodeError (Error e)))%M
      | None => emit (EvSetStatus sp CodeOk "")
      end
  end.

End internal.

(** ** Package instrumentation *)

Module instrumentation.

(** [type Propagator struct{}]; a [*Propagator] may be nil, and its
    methods never read through the receiver. *)
Inductive Propagator : Type := mkPropagator.

Definition NewPropagator : option Propagator := Some mkPropagator.

Definition MessageHandler : Type := Context -> Delivery.t -> option error.

Record ConsumerConfig : Type := {
  cTracer : option Tracer;
  cPropagator : option Propagator;
  cSpanNameFormatter : option (string -> Delivery.t -> string);
  cAttributeEnricher :
    option (Context -> string -> Delivery.t -> list SpanStartOption)
}.

Record Consumer : Type := mkConsumer { consumerConfig : ConsumerConfig }.

Record PublisherConfig : Type := {
  pTracer : option Tracer;
  pPropagator : option Propagator;
  pSpanNameFormatter : option (string -> string -> string);
  pAttributeEnricher :
    option (Context -> string -> string -> Publishing.t -> list SpanStartOption)
}.

Record Publisher : Type := mkPublisher { publisherConfig : PublisherConfig }.

Definition defaultConsumeSpanName (queueName : string) (delivery : Delivery.t)
  : string :=
  if internal.nonEmpty queueName then queueName +:+ " receive"
  else if internal.nonEmpty (Delivery.RoutingKey delivery)
       then Delivery.RoutingKey delivery +:+ " receive"
       else "rabbitmq receive".

Definition defaultPublishSpanName (exchange routingKey : string) : string :=
  if internal.nonEmpty exchange then exchange +:+ " publish"
  else if internal.nonEmpty routingKey then routingKey +:+ " publish"
       else "rabbitmq publish".

Section WithGlobals.
Variable G : Globals.

(** The message and the delivery are passed by pointer and taken to be
    non-nil; the message as the call leaves it is returned. *)
Definition InjectToPublishing (p : option Propagator) (ctx : Context)
           (publishing : Publishing.t) : Result Publishing.t :=
  let publishing :=
    match Publishing.Headers publishing with
    | None => Publishing.withHeaders makeTable publishing
    | Some _ => publishing
    end in
  rbind (internal.InjectContext G ctx (Publishing.Headers publishing))
        (fun h => Ok (Publishing.withHeaders h publishing)).

Definition ExtractFromDelivery (p : option Propagator) (ctx : Context)
           (delivery : Delivery.t) : Result (Context * Delivery.t) :=
  rbind (internal.ExtractContext G ctx (Delivery.Headers delivery))
        (fun r => Ok (fst r, Delivery.withHeaders (snd r) delivery)).

Definition InjectToHeaders (p : option Propagator) (ctx : Context)
           (headers : Table) : Result Table :=
  internal.InjectContext G ctx headers.

Definition ExtractFromHeaders (p : option Propagator) (ctx : Context)
           (headers : Table) : Result (Context * Table) :=
  internal.ExtractContext G ctx headers.

Definition DefaultPropagator : option Propagator := NewPropagator.

Definition NewConsumer (config : ConsumerConfig) : Consumer :=
  mkConsumer
    {| cTracer :=
         match cTracer config with
         | None => Some (GetTracer G internal.TracerName)
         | t => t
         end;
       cPropagator :=
         match cPropagator config with
         | None => DefaultPropagator
         | p => p
         end;
       cSpanNameFormatter :=
         match cSpanNameFormatter config with
         | None => Some defaultConsumeSpanName
         | f => f
         end;
       cAttributeEnricher := cAttributeEnricher config |}.

Definition NewDefaultConsumer : Consumer :=
  NewConsumer {| cTracer := None; cPropagator := None;
                 cSpanNameFormatter := None; cAttributeEnricher := None |}.

(** The per-delivery procedure.  The formatter, the enricher and the
    handler are taken to read the delivery only; [span.End] is deferred,
    so it is the last event. *)
Definition processDelivery (c : Consumer) (parentCtx : Context)
           (queueName : string) (delivery : Delivery.t)
           (handler : option MessageHandler) (autoAck : bool) : M unit :=
  let cfg := consumerConfig c in
  (let* r := lift (ExtractFromDelivery (cPropagator cfg) parentCtx delivery) in
   let ctx := fst r in
   let delivery := snd r in
   let* formatter := deref (cSpanNameFormatter cfg) in
   let spanName := formatter queueName delivery in
   let spanOpts := [WithSpanKind SpanKindConsumer] in
   let attrs := internal.GetConsumeAttributes queueName delivery in
   let spanOpts :=
     foldl (fun opts attr => opts ++ [WithAttributes [attr]]) spanOpts attrs in
   let spanOpts :=
     match cAttributeEnricher cfg with
     | Some enrich => spanOpts ++ enrich ctx queueName delivery
     | None => spanOpts
     end in
   let* tracer := deref (cTracer cfg) in
   let started := Start tracer ctx spanName spanOpts in
   do emit (EvSpanStart ctx spanName spanOpts (fst started) (snd started)) then
   let ctx := fst started in
   let span := snd started in
   let* err :=
     match handler with
     | Some h =>
         let answer := h ctx delivery in
         do emit (EvHandler ctx delivery answer) then ret answer
     | None => ret None
     end in
   let* err :=
     if negb autoAck then
       match err with
       | Some _ =>
           let* nackErr := Delivery_Nack delivery false true in
           match nackErr with
           | Some ne =>
               do emit (EvRecordError span
                          (Errorf_w "failed to nack message: " ne)) then
               ret err
           | None => ret err
           end
       | None =>
           let* ackErr := Delivery_Ack delivery false in
           match ackErr with
           | Some ae =>
               do emit (EvRecordError span
                          (Errorf_w "failed to ack message: " ae)) then
               ret (Some ae)
           | None => ret err
           end
       end
     else ret err in
   do internal.SafeSetSpanStatus (Some span) err then
   emit (EvSpanEnd span))%M.

Definition ProcessDelivery (c : Consumer) (ctx : Context)
           (queueName : string) (delivery : Delivery.t)
           (handler : option MessageHandler) : M (option error) :=
  (do processDelivery c ctx queueName delivery handler false then
   ret None)%M.

(** The background task of the streaming path, run to the end of the
    stream. *)
Fixpoint consumeLoop (c : Consumer) (ctx : Context) (queueName : string)
         (deliveries : list Delivery.t) (handler : option MessageHandler)
         (autoAck : bool) : M unit :=
  match deliveries with
  | [] => ret tt
  | delivery :: rest =>
      (do processDelivery c ctx queueName delivery handler autoAck then
       consumeLoop c ctx queueName rest handler autoAck)%M
  end.

Definition ConsumeWithHandler (c : Consumer) (ctx : Context)
           (channel : Channel) (queueName consumerTag : string)
           (autoAck exclusive noLocal noWait : bool) (args : Table)
           (handler : option MessageHandler) : M (option error) :=
  match consumeAnswer channel ctx queueName consumerTag
                      autoAck exclusive noLocal noWait args with
  | inr err => ret (Some (Errorf_w "failed to start consuming: " err))
  | inl deliveries =>
      (do consumeLoop c ctx queueName deliveries handler autoAck then
       ret None)%M
  end.

(** Starts the consumer span of a delivery and hands it to the caller,
    who processes, acknowledges and ends the span. *)
Definition WrapDelivery (c : Consumer) (ctx : Context) (queueName : string)
           (delivery : Delivery.t) : M (Context * Span) :=
  let cfg := consumerConfig c in
  (let* r := lift (ExtractFromDelivery (cPropagator cfg) ctx delivery) in
   let ctx := fst r in
   let delivery := snd r in
   let* formatter := deref (cSpanNameFormatter cfg) in
   let spanName := formatter queueName delivery in
   let spanOpts := [WithSpanKind SpanKindConsumer] in
   let attrs := internal.GetConsumeAttributes queueName delivery in
   let spanOpts :=
     foldl (fun opts attr => opts ++ [WithAttributes [attr]]) spanOpts attrs in
   let spanOpts :=
     match cAttributeEnricher cfg with
     | Some enrich => spanOpts ++ enrich ctx queueName delivery
     | None => spanOpts
     end in
   let* tracer := deref (cTracer cfg) in
   let started := Start tracer ctx spanName spanOpts in
   do emit (EvSpanStart ctx spanName spanOpts (fst started) (snd started)) then
   ret started)%M.

Definition NewPublisher (config : PublisherConfig) : Publisher :=
  mkPublisher
    {| pTracer :=
         match pTracer config with
         | None => Some (GetTracer G internal.TracerName)
         | t => t
         end;
       pPropagator :=
         match pPropagator config with
         | None => DefaultPropagator
         | p => p
         end;
       pSpanNameFormatter :=
         match pSpanNameFormatter config with
         | None => Some defaultPublishSpanName
         | f => f
         end;
       pAttributeEnricher := pAttributeEnricher config |}.

Definition NewDefaultPublisher : Publisher :=
  NewPublisher {| pTracer := None; pPropagator := None;
                  pSpanNameFormatter := None; pAttributeEnricher := None |}.

(** The formatter and the enricher are taken to read the message only;
    [span.End] is deferred, so it is the last event. *)
Definition Publish (p : Publisher) (ctx : Context) (channel : Channel)
           (exchange routingKey : string) (mandatory immediate : bool)
           (msg : Publishing.t) : M (option error) :=
  let cfg := publisherConfig p in
  (let* formatter := deref (pSpanNameFormatter cfg) in
   let spanName := formatter exchange routingKey in
   let spanOpts := [WithSpanKind SpanKindProducer] in
   let attrs := internal.GetPublishAttributes exchange routingKey msg in
   let spanOpts :=
     foldl (fun opts attr => opts ++ [WithAttributes [attr]]) spanOpts attrs in
   let spanOpts :=
     match pAttributeEnricher cfg with
     | Some enrich => spanOpts ++ enrich ctx exchange routingKey msg
     | None => spanOpts
     end in
   let* tracer := deref (pTracer cfg) in
   let started := Start tracer ctx spanName spanOpts in
   do emit (EvSpanStart ctx spanName spanOpts (fst started) (snd started)) then
   let ctx := fst started in
   let span := snd started in
   let msg :=
     match Publishing.Headers msg with
     | None => Publishing.withHeaders makeTable msg
     | Some _ => msg
     end in
   let* msg := lift (InjectToPublishing (pPropagator cfg) ctx msg) in
   let* err := Channel_Publish channel exchange routingKey
                               mandatory immediate msg in
   do internal.SafeSetSpanStatus (Some span) err then
   do emit (EvSpanEnd span) then
   ret err)%M.

Definition PublishWithConfirm (p : Publisher) (ctx : Context)
           (channel : Channel) (exchange routingKey : string)
           (mandatory immediate : bool) (msg : Publishing.t)
  : M (option DeferredConfirmation * option error) :=
  let cfg := publisherConfig p in
  (let* formatter := deref (pSpanNameFormatter cfg) in
   let spanName := formatter exchange routingKey in
   let spanOpts := [WithSpanKind SpanKindProducer] in
   let attrs := internal.GetPublishAttributes exchange routingKey msg in
   let spanOpts :=
     foldl (fun opts attr => opts ++ [WithAttributes [attr]]) spanOpts attrs in
   let spanOpts :=
     match pAttributeEnricher cfg with
     | Some enrich => spanOpts ++ enrich ctx exchange routingKey msg
     | None => spanOpts
     end in
   let* tracer := deref (pTracer cfg) in
   let started := Start tracer ctx spanName spanOpts in
   do emit (EvSpanStart ctx spanName spanOpts (fst started) (snd started)) then
   let ctx := fst started in
   let span := snd started in
   let msg :=
     match Publishing.Headers msg with
     | None => Publishing.withHeaders makeTable msg
     | Some _ => msg
     end in
   let* msg := lift (InjectToPublishing (pPropagator cfg) ctx msg) in
   let* r := Channel_PublishWithDeferredConfirmWithContext
               channel ctx exchange routingKey mandatory immediate msg in
   do internal.SafeSetSpanStatus (Some span) (snd r) then
   do emit (EvSpanEnd span) then
   ret r)%M.

End WithGlobals.

End instrumentation.

(** ** Package instrumentation: the channel and connection wrappers *)

Module wrappers.
Import instrumentation.

(** [amqp091.Connection]: what [Connection.Channel] answers. *)
Record AmqpConnection : Type := {
  channelAnswer : Channel + error
}.

Record ChannelConfig : Type := {
  chPublisherConfig : PublisherConfig;
  chConsumerConfig : ConsumerConfig
}.

(** [type Channel struct]: the wrapped channel, a publisher and a
    consumer. *)
Record TracedChannel : Type := {
  wrapped : Channel;
  publisher : Publisher;
  consumer : Consumer
}.

(** [type Connection struct]. *)
Record Connection : Type := {
  wrappedConnection : AmqpConnection;
  channelConfig : ChannelConfig
}.

Record ConnectionConfig : Type := { connChannelConfig : ChannelConfig }.

Definition emptyChannelConfig : ChannelConfig :=
  {| chPublisherConfig :=
       {| pTracer := None; pPropagator := None;
          pSpanNameFormatter := None; pAttributeEnricher := None |};
     chConsumerConfig :=
       {| cTracer := None; cPropagator := None;
          cSpanNameFormatter := None; cAttributeEnricher := None |} |}.

Section WithGlobals.
Variable G : Globals.

Definition NewChannel (channel : Channel) (config : ChannelConfig)
  : TracedChannel :=
  {| wrapped := channel;
     publisher := NewPublisher G (chPublisherConfig config);
     consumer := NewConsumer G (chConsumerConfig config) |}.

Definition NewDefaultChannel (channel : Channel) : TracedChannel :=
  NewChannel channel emptyChannelConfig.

Definition PublishWithTracing (c : TracedChannel) (ctx : Context)
           (exchange routingKey : string) (mandatory immediate : bool)
           (msg : Publishing.t) : M (option error) :=
  Publish G (publisher c) ctx (wrapped c) exchange routingKey
          mandatory immediate msg.

Definition PublishWithConfirmAndTracing (c : TracedChannel) (ctx : Context)
           (exchange routingKey : string) (mandatory immediate : bool)
           (msg : Publishing.t)
  : M (option DeferredConfirmation * option error) :=
  PublishWithConfirm G (publisher c) ctx (wrapped c) exchange routingKey
                     mandatory immediate msg.

Definition ConsumeWithTracing (c : TracedChannel) (ctx : Context)
           (queueName consumerTag : string)
           (autoAck exclusive noLocal noWait : bool) (args : Table)
           (handler : option MessageHandler) : M (option error) :=
  ConsumeWithHandler G (consumer c) ctx (wrapped c) queueName consumerTag
                     autoAck exclusive noLocal noWait args handler.

Definition ProcessDeliveryWithTracing (c : TracedChannel) (ctx : Context)
           (queueName : string) (delivery : Delivery.t)
           (handler : option MessageHandler) : M (option error) :=
  ProcessDelivery G (consumer c) ctx queueName delivery handler.

Definition WrapDeliveryWithTracing (c : TracedChannel) (ctx : Context)
           (queueName : string) (delivery : Delivery.t) : M (Context * Span) :=
  WrapDelivery G (consumer c) ctx queueName delivery.

Definition NewConnection (conn : AmqpConnection) (config : ConnectionConfig)
  : Connection :=
  {| wrappedConnection := conn; channelConfig := connChannelConfig config |}.

Definition NewDefaultConnection (conn : AmqpConnection) : Connection :=
  NewConnection conn {| connChannelConfig := emptyChannelConfig |}.

Definition ChannelWithTracing (c : Connection)
  : option TracedChannel * option error :=
  match channelAnswer (wrappedConnection c) with
  | inr err => (None, Some (Errorf_w "failed to create channel: " err))
  | inl ch => (Some (NewChannel ch (channelConfig c)), None)
  end.

Definition ChannelWithTracingAndConfig (c : Connection) (config : ChannelConfig)
  : option TracedChannel * option error :=
  match channelAnswer (wrappedConnection c) with
  | inr err => (None, Some (Errorf_w "failed to create channel: " err))
  | inl ch => (Some (NewChannel ch config), None)
  end.

End WithGlobals.

End wrappers.

(** ** Vocabulary of the statements *)

(** A sequence of [Set] calls on a carrier, as a test or a propagator
    performs them. *)
Fixpoint setAll (kvs : list (string * string)) (hc : Table) : Result Table :=
  match kvs with
  | [] => Ok hc
  | (k, v) :: rest => rbind (internal.HeaderCarrier_Set hc k v) (setAll rest)
  end.

(** What a propagator may rely on in a carrier: from a usable state
    [Set] succeeds and leaves a usable state, and [Get] reads back what
    [Set] wrote and nothing else. *)
Record CarrierContract (C : TextMapCarrier) (live : C -> Prop) : Prop := {
  contract_set : forall c k v, live c ->
    exists c', cSet C c k v = Ok c' /\ live c';
  contract_get_eq : forall c c' k v,
    cSet C c k v = Ok c' -> cGet C c' k = v;
  contract_get_ne : forall c c' k k' v,
    cSet C c k v = Ok c' -> k ≠ k' -> cGet C c' k' = cGet C c k'
}.

(** Two contexts carry the same trace identifiers. *)
Definition sameTrace (a b : Context) : Prop :=
  TraceID (SpanContextFromContext a) = TraceID (SpanContextFromContext b)
  /\ SpanID (SpanContextFromContext a) = SpanID (SpanContextFromContext b).

(** The propagator's own round trip: on any carrier that keeps the
    contract, what it extracts after it injected a valid context carries
    that context's identifiers. *)
Definition RoundTrips (P : TextMapPropagator) : Prop :=
  forall (C : TextMapCarrier) (live : C -> Prop), CarrierContract C live ->
  forall (ctx parent ctx' : Context) (c c1 c2 : C),
    live c -> IsValid (SpanContextFromContext ctx) = true ->
    run (tmpInject P ctx) c = Ok (tt, c1) ->
    run (tmpExtract P parent) c1 = Ok (ctx', c2) ->
    sameTrace ctx' ctx.

(** The propagator returns its parent context when the carrier, read
    through [Get], holds nothing it [recognizes]. *)
Definition IgnoresUnrecognized (P : TextMapPropagator)
           (recognizes : (string -> string) -> Prop) : Prop :=
  forall (C : TextMapCarrier) (live : C -> Prop), CarrierContract C live ->
  forall (ctx ctx' : Context) (c c' : C),
    live c -> ~ recognizes (cGet C c) ->
    run (tmpExtract P ctx) c = Ok (ctx', c') ->
    ctx' = ctx.

(** What the W3C propagator recognizes: a well-formed [traceparent]. *)
Definition hasTraceparent (get : string -> string) : Prop :=
  is_Some (decodeTraceparent (get traceparentHeader)).

(** A table that is not the nil map. *)
Definition allocated (hc : Table) : Prop := is_Some hc.

(** Sample globals: the W3C propagator registered, and a tracer that
    hands out one fixed child span. *)
Definition fixedSpan : SpanContext :=
  {| TraceID := "4bf92f3577b34da6a3ce929d0e0e4736";
     SpanID := "00f067aa0ba902b7"; Sampled := true; Remote := false |}.

Definition childSpan : SpanContext :=
  {| TraceID := "4bf92f3577b34da6a3ce929d0e0e4736";
     SpanID := "b7ad6b7169203331"; Sampled := true; Remote := false |}.

Definition fixedTracer : Tracer :=
  {| Start := fun ctx _ _ =>
       ({| ctxSpan := childSpan; ctxValues := ctxValues ctx |}, childSpan) |}.

Definition w3cGlobals : Globals :=
  {| GetTextMapPropagator := TraceContext; GetTracer := fun _ => fixedTracer |}.


Definition tracedContext : Context :=
  {| ctxSpan := fixedSpan; ctxValues := [] |}.

(** What a log says: the acknowledgments issued, the handler's answers,
    the errors recorded on spans, the statuses set, and the context each
    send was given ([None] for a send that takes no context). *)
Definition acks (log : list Event) : list (N * bool * option error) :=
  omap (fun e => match e with
                 | EvAck tag multiple answer => Some (tag, multiple, answer)
                 | _ => None
                 end) log.

Definition nacks (log : list Event) : list (N * bool * bool * option error) :=
  omap (fun e => match e with
                 | EvNack tag multiple requeue answer =>
                     Some (tag, multiple, requeue, answer)
                 | _ => None
                 end) log.

Definition handlerAnswers (log : list Event) : list (option error) :=
  omap (fun e => match e with
                 | EvHandler _ _ answer => Some answer
                 | _ => None
                 end) log.

(** The handler's error; a handler that was not called did not fail. *)
Definition handlerOutcome (log : list Event) : option error :=
  match handlerAnswers log with
  | answer :: _ => answer
  | [] => None
  end.

(** The error the per-delivery procedure takes from its handler when it
    hands it a context and a delivery: the handler's return value, and
    no error when the handler is nil. *)
Definition handlerResult (handler : option instrumentation.MessageHandler)
           (ctx : Context) (delivery : Delivery.t) : option error :=
  match handler with
  | Some h => h ctx delivery
  | None => None
  end.

Definition recorded (log : list Event) : list error :=
  omap (fun e => match e with
                 | EvRecordError _ err => Some err
                 | _ => None
                 end) log.

Definition statuses (log : list Event) : list (Code * string) :=
  omap (fun e => match e with
                 | EvSetStatus _ code description => Some (code, description)
                 | _ => None
                 end) log.

Definition sends (log : list Event) : list (option Context * Publishing.t) :=
  omap (fun e => match e with
                 | EvChannelPublish _ _ _ _ msg _ => Some (None, msg)
                 | EvChannelPublishWithDeferredConfirmWithContext ctx _ _ _ _ msg _ =>
                     Some (Some ctx, msg)
                 | _ => None
                 end) log.

(** The spans started: the context handed to the tracer, the context
    the tracer derived from it, and the span. *)
Definition spansStarted (log : list Event)
  : list (Context * Context * SpanContext) :=
  omap (fun e => match e with
                 | EvSpanStart parent _ _ derived span =>
                     Some (parent, derived, span)
                 | _ => None
                 end) log.

(** The name and the start options of each span started. *)
Definition spanRequests (log : list Event)
  : list (string * list SpanStartOption) :=
  omap (fun e => match e with
                 | EvSpanStart _ name opts _ _ => Some (name, opts)
                 | _ => None
                 end) log.

Definition spansEnded (log : list Event) : list SpanContext :=
  omap (fun e => match e with
                 | EvSpanEnd span => Some span
                 | _ => None
                 end) log.

Definition handlerCalls (log : list Event) : list (Context * Delivery.t) :=
  omap (fun e => match e with
                 | EvHandler ctx delivery _ => Some (ctx, delivery)
                 | _ => None
                 end) log.

(** The delivery tags acknowledged, positively or negatively, in order. *)
Definition settled (log : list Event) : list N :=
  omap (fun e => match e with
                 | EvAck tag _ _ => Some tag
                 | EvNack tag _ _ _ => Some tag
                 | _ => None
                 end) log.

(** The error a per-delivery run ends with: the handler's, else the one
    a positive acknowledgment answered. *)
Definition finalError (log : list Event) : option error :=
  match handlerOutcome log with
  | Some he => Some he
  | None =>
      match acks log with
      | (_, _, answer) :: _ => answer
      | [] => None
      end
  end.

Definition statusOf (err : option error) : Code * string :=
  match err with
  | Some e => (CodeError, Error e)
  | None => (CodeOk, "")
  end.

(** A computation that only appends to the log it is given, and does
    the same whatever that log holds. *)
Definition appendOnly {A} (m : M A) : Prop :=
  forall log0,
    m log0 = match m [] with
             | Ok (a, log) => Ok (a, log0 ++ log)
             | Panic msg => Panic msg
             end.

(** A consumer and a publisher that no constructor filled in. *)
Definition zeroConsumer : instrumentation.Consumer :=
  instrumentation.mkConsumer
    {| instrumentation.cTracer := None; instrumentation.cPropagator := None;
       instrumentation.cSpanNameFormatter := None;
       instrumentation.cAttributeEnricher := None |}.

Definition zeroPublisher : instrumentation.Publisher :=
  instrumentation.mkPublisher
    {| instrumentation.pTracer := None; instrumentation.pPropagator := None;
       instrumentation.pSpanNameFormatter := None;
       instrumentation.pAttributeEnricher := None |}.

(** Sample collaborators: an acknowledger and a channel that accept or
    refuse everything, handlers that succeed or fail. *)
Definition acceptAll : Acknowledger :=
  {| ackAnswer := fun _ _ => None; nackAnswer := fun _ _ _ => None |}.

Definition refuseAll : Acknowledger :=
  {| ackAnswer := fun _ _ => Some (errorString "channel closed");
     nackAnswer := fun _ _ _ => Some (errorString "channel closed") |}.

Definition sampleDelivery (a : Acknowledger) : Delivery.t :=
  Delivery.mk (Some a) None "" "" 7 "order.created" [].

Definition okHandler : instrumentation.MessageHandler := fun _ _ => None.

Definition failingHandler : instrumentation.MessageHandler :=
  fun _ _ => Some (errorString "boom").

Definition openChannel : Channel :=
  {| publishAnswer := fun _ _ _ _ _ => None;
     publishWithDeferredConfirmAnswer := fun _ _ _ _ _ _ => (Some 1%N, None);
     consumeAnswer := fun _ _ _ _ _ _ _ _ => inl [] |}.

Definition sampleMessage : Publishing.t := Publishing.mk None "text/plain" "" "" [].

(** * Properties *)

(** ** Attribute builder *)

Section AttributeBuilder.
Import internal.

Lemma nonEmpty_true (s : string) : nonEmpty s = true <-> s ≠ "".
Proof.
  unfold nonEmpty. destruct (String.eqb_spec s ""); simpl; split; congruence.
Qed.

Lemma nonEmpty_decide (s : string) :
  nonEmpty s = if decide (s = "") then false else true.
Proof.
  unfold nonEmpty. destruct (String.eqb_spec s ""), (decide (s = "")); simpl; congruence.
Qed.

(** C2. [GetCommonAttributes]: with an exchange, system, destination
    (the exchange) and kind topic, then the routing key when it is not
    empty; without one, system and kind queue, then destination (the
    routing key) and routing key when it is not empty.  No attribute
    has an empty value and the system attribute is always there. *)
Theorem GetCommonAttributes_spec (exchange routingKey : string) :
  GetCommonAttributes exchange routingKey =
    (if decide (exchange = "") then
       [String_ MessagingSystem SystemRabbitMQ;
        String_ MessagingDestinationKind DestinationKindQueue]
       ++ (if decide (routingKey = "") then []
           else [String_ MessagingDestination routingKey;
                 String_ MessagingRabbitMQRoutingKey routingKey])
     else
       [String_ MessagingSystem SystemRabbitMQ;
        String_ MessagingDestination exchange;
        String_ MessagingDestinationKind DestinationKindTopic]
       ++ (if decide (routingKey = "") then []
           else [String_ MessagingRabbitMQRoutingKey routingKey]))
  ∧ Forall (fun kv => Value kv ≠ "") (GetCommonAttributes exchange routingKey)
  ∧ String_ MessagingSystem SystemRabbitMQ ∈ GetCommonAttributes exchange routingKey.
Proof.
  unfold GetCommonAttributes. rewrite !nonEmpty_decide.
  destruct (decide (exchange = "")) as [He|He],
           (decide (routingKey = "")) as [Hr|Hr]; simpl;
    (split; [reflexivity|]); (split; [|apply list_elem_of_here]);
    repeat constructor; simpl; try discriminate; assumption.
Qed.

End AttributeBuilder.

(** ** Header carrier *)

Section Carrier.
Import internal.

Lemma Get_absent (m : gmap string FieldValue) (key : string) :
  m !! key = None -> HeaderCarrier_Get (Some m) key = "".
Proof. intros H. unfold HeaderCarrier_Get. by rewrite H. Qed.

Lemma Get_Set_eq (hc hc' : Table) (key value : string) :
  HeaderCarrier_Set hc key value = Ok hc' -> HeaderCarrier_Get hc' key = value.
Proof.
  destruct hc as [m|]; simpl; [|discriminate].
  intros [= <-]. simpl. by rewrite lookup_insert_eq.
Qed.

Lemma Get_Set_ne (hc hc' : Table) (key key' value : string) :
  HeaderCarrier_Set hc key value = Ok hc' -> key ≠ key' ->
  HeaderCarrier_Get hc' key' = HeaderCarrier_Get hc key'.
Proof.
  destruct hc as [m|]; simpl; [|discriminate].
  intros [= <-] Hne. simpl. by rewrite lookup_insert_ne.
Qed.

Lemma Keys_NoDup (hc : Table) : NoDup (HeaderCarrier_Keys hc).
Proof.
  destruct hc as [m|]; simpl; [apply NoDup_fst_map_to_list | constructor].
Qed.

Lemma Keys_elem_of (m : gmap string FieldValue) (key : string) :
  key ∈ HeaderCarrier_Keys (Some m) <-> is_Some (m !! key).
Proof.
  simpl. rewrite list_elem_of_fmap. split.
  - intros [[k v] [-> Hin]]. apply elem_of_map_to_list in Hin. eauto.
  - intros [v Hv]. exists (key, v). split; [done|]. by apply elem_of_map_to_list.
Qed.

Lemma Keys_length (m : gmap string FieldValue) :
  length (HeaderCarrier_Keys (Some m)) = size m.
Proof. simpl. by rewrite length_fmap, length_map_to_list. Qed.

Lemma setAll_dom (kvs : list (string * string)) (m : gmap string FieldValue) :
  exists m', setAll kvs (Some m) = Ok (Some m')
             /\ dom m' = dom m ∪ list_to_set kvs.*1.
Proof.
  revert m. induction kvs as [|[k v] rest IH]; intros m; simpl.
  - exists m. split; [done|]. set_solver.
  - destruct (IH (<[k := VString v]> m)) as (m' & Hrun & Hdom).
    exists m'. split; [done|]. rewrite Hdom, dom_insert_L. set_solver.
Qed.

(** C9. The header carrier: [Get] of a key that is absent or holds a
    non-string is the empty string; [Get] after [Set] of the same key
    is the value set; [Keys] lists each key present once, so after any
    sequence of [Set]s on a fresh map its length is the number of
    distinct keys set. *)
Theorem HeaderCarrier_contract :
  (forall (hc : Table) (key : string),
      (forall m, hc = Some m -> forall s, m !! key ≠ Some (VString s)) ->
      HeaderCarrier_Get hc key = "")
  /\ (forall (m : gmap string FieldValue) (key value : string),
        exists hc', HeaderCarrier_Set (Some m) key value = Ok hc'
                    /\ HeaderCarrier_Get hc' key = value)
  /\ (forall (m : gmap string FieldValue),
        NoDup (HeaderCarrier_Keys (Some m))
        /\ (forall key, key ∈ HeaderCarrier_Keys (Some m) <-> is_Some (m !! key))
        /\ length (HeaderCarrier_Keys (Some m)) = size m)
  /\ (forall (kvs : list (string * string)),
        exists hc', setAll kvs makeTable = Ok hc'
                    /\ length (HeaderCarrier_Keys hc')
                       = length (remove_dups kvs.*1)).
Proof.
  repeat split.
  - intros [m|] key H; simpl; [|done].
    destruct (m !! key) as [[s| | | |]|] eqn:E; try done.
    by destruct (H m eq_refl s).
  - intros m key value. eexists. split; [reflexivity|].
    simpl. by rewrite lookup_insert_eq.
  - apply Keys_NoDup.
  - apply Keys_elem_of.
  - apply Keys_elem_of.
  - apply Keys_length.
  - intros kvs. destruct (setAll_dom kvs ∅) as (m' & Hrun & Hdom).
    exists (Some m'). split; [exact Hrun|].
    apply Permutation_length, NoDup_Permutation.
    + apply Keys_NoDup.
    + apply NoDup_remove_dups.
    + intros k. rewrite Keys_elem_of, <- elem_of_dom, Hdom, elem_of_remove_dups.
      set_solver.
Qed.

(** The carrier contract at a map that holds a non-string entry. *)
Lemma HeaderCarrier_contract_witness :
  HeaderCarrier_Get (Some {[ "n" := VInt 7 ]}) "n" = ""
  /\ HeaderCarrier_Get None "n" = ""
  /\ HeaderCarrier_Get (Some ∅) "absent" = "".
Proof.
  destruct HeaderCarrier_contract as (Hget & _).
  split; [|split]; apply Hget.
  - intros m [= <-] s. vm_compute. discriminate.
  - intros m. discriminate.
  - intros m [= <-] s. vm_compute. discriminate.
Defined.

End Carrier.

(** ** Propagation *)

Section Propagation.
Import internal instrumentation.

Lemma HeaderCarrier_keeps_contract : CarrierContract HeaderCarrier allocated.
Proof.
  split.
  - intros [m|] k v [m0 Hm]; [|discriminate]. simpl. eexists. split; [reflexivity|].
    by eexists.
  - intros c c' k v. apply Get_Set_eq.
  - intros c c' k k' v. apply Get_Set_ne.
Qed.

(** A program run on a usable carrier does not panic. *)
Lemma run_live (C : TextMapCarrier) (live : C -> Prop) (A : Type)
      (p : CarrierProg A) :
  CarrierContract C live ->
  forall c, live c -> exists a c', run p c = Ok (a, c') /\ live c'.
Proof.
  intros HC. induction p as [a|key k IH|key value k IH|k IH]; intros c Hc; simpl.
  - eauto.
  - apply IH, Hc.
  - destruct (contract_set C live HC c key value Hc) as (c' & -> & Hc').
    apply IH, Hc'.
  - apply IH, Hc.
Qed.

(** A run on a table only adds keys, and changes only the keys it sets. *)
Lemma run_frame (A : Type) (p : CarrierProg A) :
  forall m : gmap string FieldValue,
  exists a m', run (C := HeaderCarrier) p (Some m) = Ok (a, Some m')
               /\ dom m ⊆ dom m'
               /\ forall k, k ∉ written (C := HeaderCarrier) p (Some m) ->
                            m' !! k = m !! k.
Proof.
  induction p as [a|key k IH|key value k IH|k IH]; intros m; simpl.
  - exists a, m. auto.
  - apply IH.
  - destruct (IH (<[key := VString value]> m)) as (a & m' & Hrun & Hdom & Hfr).
    exists a, m'. split; [exact Hrun|]. split.
    + etrans; [|exact Hdom]. rewrite dom_insert_L. set_solver.
    + intros k0 Hk. apply not_elem_of_cons in Hk as [Hne Hk].
      rewrite (Hfr k0 Hk). by rewrite lookup_insert_ne.
  - apply IH.
Qed.

(** *** The W3C propagator keeps both laws *)

Ltac explode s H :=
  repeat (destruct s as [|? s]; simpl in H; try discriminate H).

Lemma traceparent_pieces (tid sid fl : string) :
  String.length tid = 32 -> String.length sid = 16 -> String.length fl = 2 ->
  let h := "00-" +:+ tid +:+ "-" +:+ sid +:+ "-" +:+ fl in
  String.length h = 55
  /\ substring 0 3 h = "00-" /\ substring 35 1 h = "-"
  /\ substring 52 1 h = "-" /\ substring 3 32 h = tid
  /\ substring 36 16 h = sid /\ substring 53 2 h = fl.
Proof.
  intros Ht Hs Hf. explode tid Ht. explode sid Hs. explode fl Hf.
  repeat split; reflexivity.
Qed.

Lemma validID_length (n : nat) (s : string) :
  validID n s = true -> String.length s = n.
Proof.
  unfold validID. intros H.
  apply andb_prop in H as [H _]. apply andb_prop in H as [H _].
  by apply Nat.eqb_eq.
Qed.

Lemma decode_encode (sc : SpanContext) :
  IsValid sc = true ->
  decodeTraceparent (encodeTraceparent sc)
  = Some {| TraceID := TraceID sc; SpanID := SpanID sc;
            Sampled := Sampled sc; Remote := true |}.
Proof.
  intros Hv. pose proof Hv as Hv'. unfold IsValid in Hv'.
  apply andb_prop in Hv' as [Ht Hs].
  apply validID_length in Ht, Hs.
  assert (Hf : String.length (if Sampled sc then "01" else "00") = 2)
    by (by destruct (Sampled sc)).
  destruct (traceparent_pieces _ _ _ Ht Hs Hf)
    as (Hlen & H0 & H35 & H52 & H3 & H36 & H53).
  unfold decodeTraceparent, encodeTraceparent.
  rewrite Hlen, H0, H35, H52, H3, H36, H53. simpl.
  replace (IsValid _) with (IsValid sc) by reflexivity.
  rewrite Hv. by destruct (Sampled sc).
Qed.

Lemma TraceContext_round_trips : RoundTrips TraceContext.
Proof.
  intros C live HC ctx parent ctx' c c1 c2 Hlive Hv Hinj Hext.
  simpl in Hinj. rewrite Hv in Hinj. simpl in Hinj.
  destruct (cSet C c traceparentHeader _) as [c0|] eqn:Hset; [|discriminate].
  injection Hinj as <-.
  apply (contract_get_eq C live HC) in Hset.
  simpl in Hext. rewrite Hset, (decode_encode _ Hv) in Hext.
  injection Hext as <- _. split; reflexivity.
Qed.

Lemma TraceContext_ignores_unrecognized :
  IgnoresUnrecognized TraceContext hasTraceparent.
Proof.
  intros C live HC ctx ctx' c c' Hlive Hno Hext.
  unfold hasTraceparent in Hno. simpl in Hext.
  destruct (decodeTraceparent (cGet C c traceparentHeader)) as [sc|] eqn:E.
  - destruct Hno. eauto.
  - by injection Hext as <- _.
Qed.

(** *** The library's entry points *)

Lemma InjectContext_allocated (G : Globals) (ctx : Context)
      (m : gmap string FieldValue) :
  exists m', InjectContext G ctx (Some m) = Ok (Some m')
    /\ run (C := HeaderCarrier) (tmpInject (GetTextMapPropagator G) ctx) (Some m)
       = Ok (tt, Some m')
    /\ dom m ⊆ dom m'
    /\ forall k,
        k ∉ written (C := HeaderCarrier)
                    (tmpInject (GetTextMapPropagator G) ctx) (Some m) ->
        m' !! k = m !! k.
Proof.
  destruct (run_frame unit (tmpInject (GetTextMapPropagator G) ctx) m)
    as ([] & m' & Hrun & Hdom & Hfr).
  exists m'. unfold InjectContext. rewrite Hrun. auto.
Qed.

Lemma ExtractContext_allocated (G : Globals) (ctx : Context)
      (m : gmap string FieldValue) :
  exists ctx' m', ExtractContext G ctx (Some m) = Ok (ctx', Some m').
Proof.
  destruct (run_frame Context (tmpExtract (GetTextMapPropagator G) ctx) m)
    as (ctx' & m' & Hrun & _).
  exists ctx', m'. exact Hrun.
Qed.





(** C4. [InjectToPublishing] never leaves the header map unset: an
    unset map is replaced by a fresh one that then holds only what the
    injection wrote, and in a map that was set every entry keeps its
    key, and keeps its value unless the propagator wrote that key. *)
Theorem InjectToPublishing_additive (G : Globals) (p : option Propagator)
        (ctx : Context) (msg : Publishing.t) :
  exists m' : gmap string FieldValue,
    InjectToPublishing G p ctx msg = Ok (Publishing.withHeaders (Some m') msg)
    /\ (Publishing.Headers msg = None ->
        InjectContext G ctx makeTable = Ok (Some m')
        /\ forall k,
            k ∉ written (C := HeaderCarrier)
                        (tmpInject (GetTextMapPropagator G) ctx) makeTable ->
            m' !! k = None)
    /\ (forall (m : gmap string FieldValue) (k : string) (v : FieldValue),
          Publishing.Headers msg = Some m -> m !! k = Some v ->
          is_Some (m' !! k)
          /\ (k ∉ written (C := HeaderCarrier)
                          (tmpInject (GetTextMapPropagator G) ctx) (Some m) ->
              m' !! k = Some v)).
Proof.
  unfold InjectToPublishing.
  destruct (Publishing.Headers msg) as [m|] eqn:Hm.
  - destruct (InjectContext_allocated G ctx m) as (m' & Hinj & _ & Hdom & Hfr).
    exists m'. rewrite Hm, Hinj. split; [reflexivity|]. split; [discriminate|].
    intros m1 k v [= <-] Hk. split.
    + apply elem_of_dom, Hdom, elem_of_dom. eauto.
    + intros Hw. by rewrite (Hfr k Hw).
  - destruct (InjectContext_allocated G ctx ∅) as (m' & Hinj & _ & Hdom & Hfr).
    exists m'. cbn [Publishing.withHeaders Publishing.Headers]. unfold makeTable.
    rewrite Hinj. split; [reflexivity|]. split.
    + intros _. split; [reflexivity|]. intros k Hw. by rewrite (Hfr k Hw).
    + discriminate.
Qed.

(** The test of the repository: an entry [existing] survives injection. *)
Lemma InjectToPublishing_additive_witness :
  exists m' : gmap string FieldValue,
    InjectToPublishing w3cGlobals NewPropagator tracedContext
      (Publishing.mk (Some {[ "existing" := VString "value" ]}) "" "" "" [])
    = Ok (Publishing.mk (Some m') "" "" "" [])
    /\ m' !! "existing" = Some (VString "value").
Proof.
  destruct (InjectToPublishing_additive w3cGlobals NewPropagator tracedContext
              (Publishing.mk (Some {[ "existing" := VString "value" ]}) "" "" "" []))
    as (m' & Hrun & _ & Hkeep).
  exists m'. split; [exact Hrun|].
  apply (Hkeep {[ "existing" := VString "value" ]} "existing" (VString "value")).
  - reflexivity.
  - vm_compute. reflexivity.
  - match goal with
    | |- _ ∉ ?w => let w' := eval vm_compute in w in change w with w'
    end.
    apply not_elem_of_cons. split; [discriminate|apply not_elem_of_nil].
Defined.

(** C5. [ExtractFromDelivery] returns the context it was given when
    the delivery has no header map, and when the header map, read
    through the carrier, holds nothing the registered propagator
    recognizes; it never panics. *)
Theorem ExtractFromDelivery_total (G : Globals) (p : option Propagator)
        (ctx : Context) (d : Delivery.t) :
  (Delivery.Headers d = None -> ExtractFromDelivery G p ctx d = Ok (ctx, d))
  /\ (exists ctx' d', ExtractFromDelivery G p ctx d = Ok (ctx', d'))
  /\ (forall recognizes : (string -> string) -> Prop,
        IgnoresUnrecognized (GetTextMapPropagator G) recognizes ->
        ~ recognizes (HeaderCarrier_Get (Delivery.Headers d)) ->
        exists d', ExtractFromDelivery G p ctx d = Ok (ctx, d')).
Proof.
  unfold ExtractFromDelivery. split; [|split].
  - intros Hd. rewrite Hd. simpl. destruct d; simpl in *. by subst.
  - destruct (Delivery.Headers d) as [m|]; [|simpl; eauto].
    destruct (ExtractContext_allocated G ctx m) as (ctx' & m' & ->).
    simpl. eauto.
  - intros recognizes HP Hno.
    destruct (Delivery.Headers d) as [m|] eqn:Hd; [|simpl; eauto].
    destruct (ExtractContext_allocated G ctx m) as (ctx' & m' & Hext).
    rewrite Hext. simpl.
    assert (ctx' = ctx) as ->; [|eauto].
    eapply (HP HeaderCarrier allocated HeaderCarrier_keeps_contract
               ctx ctx' (Some m) (Some m')); [by eexists|exact Hno|exact Hext].
Qed.

(** Extraction from a delivery without headers and from one whose
    headers hold no [traceparent]. *)
Lemma ExtractFromDelivery_total_witness :
  ExtractFromDelivery w3cGlobals NewPropagator tracedContext
    (Delivery.mk None None "" "" 1 "" [])
  = Ok (tracedContext, Delivery.mk None None "" "" 1 "" [])
  /\ exists d',
      ExtractFromDelivery w3cGlobals NewPropagator Background
        (Delivery.mk None (Some {[ "test" := VString "value" ]}) "" "" 1 "" [])
      = Ok (Background, d').
Proof.
  split.
  - apply (ExtractFromDelivery_total w3cGlobals NewPropagator tracedContext
             (Delivery.mk None None "" "" 1 "" [])).
    reflexivity.
  - apply (ExtractFromDelivery_total w3cGlobals NewPropagator Background
             (Delivery.mk None (Some {[ "test" := VString "value" ]}) "" "" 1 "" [])
             ) with (recognizes := hasTraceparent).
    + exact TraceContext_ignores_unrecognized.
    + unfold hasTraceparent. vm_compute. intros [x Hx]. discriminate.
Defined.

End Propagation.

(** ** Consumer *)

Section ConsumerProperties.
Import internal instrumentation.

Lemma ExtractFromDelivery_returns (G : Globals) (p : option Propagator)
      (ctx : Context) (d : Delivery.t) :
  exists ctx' d',
    ExtractFromDelivery G p ctx d = Ok (ctx', d')
    /\ Delivery.DeliveryTag d' = Delivery.DeliveryTag d
    /\ Delivery.acknowledger d' = Delivery.acknowledger d.
Proof.
  unfold ExtractFromDelivery.
  destruct (Delivery.Headers d) as [m|]; [|simpl; eauto].
  destruct (ExtractContext_allocated G ctx m) as (ctx' & m' & ->).
  simpl. eauto.
Qed.

(** Runs the per-delivery procedure of a consumer made by
    [NewConsumer] on every answer its collaborators can give. *)
Ltac delivery_cases G cfg parentCtx d handler :=
  let ctx1 := fresh "ctx1" in
  let d1 := fresh "d1" in
  let Hext := fresh "Hext" in
  let Htag := fresh "Htag" in
  let Hack := fresh "Hack" in
  destruct (ExtractFromDelivery_returns G
              (cPropagator (consumerConfig (NewConsumer G cfg))) parentCtx d)
    as (ctx1 & d1 & Hext & Htag & Hack);
  unfold ProcessDelivery, processDelivery, bind, lift; rewrite Hext;
  unfold Delivery_Ack, Delivery_Nack, bind; cbn [fst snd];
  rewrite ?Hack, ?Htag;
  destruct cfg as [[?|] ? [?|] [?|]]; destruct handler as [?|]; simpl;
  repeat match goal with
    | |- context [match ?x with Some _ => _ | None => _ end] =>
        destruct x eqn:?; simpl
    end;
  eexists; (split; [reflexivity|]); simpl.

(** One run of the per-delivery procedure of a consumer made by
    [NewConsumer]: the handler is called with the context the tracer
    derived and the delivery as extraction left it, and what it returns
    decides the acknowledgment. *)
Lemma processDelivery_settles (G : Globals) (cfg : ConsumerConfig)
      (parentCtx : Context) (queueName : string) (d : Delivery.t)
      (handler : option MessageHandler) :
  exists ctx1 d1 tracer name opts,
    ExtractFromDelivery G (cPropagator (consumerConfig (NewConsumer G cfg)))
                        parentCtx d = Ok (ctx1, d1)
    /\ cTracer (consumerConfig (NewConsumer G cfg)) = Some tracer
    /\ forall autoAck : bool,
        exists log,
          processDelivery G (NewConsumer G cfg) parentCtx queueName d handler
                          autoAck [] = Ok (tt, log)
          /\ spanRequests log = [(name, opts)]
          /\ handlerCalls log
             = match handler with
               | Some _ => [(fst (Start tracer ctx1 name opts), d1)]
               | None => []
               end
          /\ handlerAnswers log
             = match handler with
               | Some h => [h (fst (Start tracer ctx1 name opts)) d1]
               | None => []
               end
          /\ if autoAck then acks log = [] /\ nacks log = []
             else match handlerResult handler
                          (fst (Start tracer ctx1 name opts)) d1 with
                  | None =>
                      (exists answer,
                          acks log = [(Delivery.DeliveryTag d, false, answer)])
                      /\ nacks log = []
                  | Some _ =>
                      (exists answer,
                          nacks log
                          = [(Delivery.DeliveryTag d, false, true, answer)])
                      /\ acks log = []
                  end.
Proof.
  destruct (ExtractFromDelivery_returns G
              (cPropagator (consumerConfig (NewConsumer G cfg))) parentCtx d)
    as (ctx1 & d1 & Hext & Htag & Hack).
  exists ctx1, d1.
  unfold processDelivery, bind, lift; rewrite Hext.
  unfold Delivery_Ack, Delivery_Nack, bind; cbn [fst snd];
    rewrite ?Hack, ?Htag.
  destruct cfg as [[?|] ? [?|] [?|]]; simpl;
    match goal with
    | |- context [EvSpanStart _ ?n ?o (fst (Start ?t _ _ _)) _] =>
        exists t, n, o
    end;
    (split; [reflexivity|]); (split; [reflexivity|]);
    intros autoAck; destruct handler as [?|], autoAck; simpl;
    repeat match goal with
      | |- context [match ?x with Some _ => _ | None => _ end] =>
          destruct x eqn:?; simpl
      end;
    eexists; (split; [reflexivity|]); simpl; eauto 10.
Qed.

Lemma ProcessDelivery_unfold (G : Globals) (c : Consumer) (ctx : Context)
      (queueName : string) (d : Delivery.t) (handler : option MessageHandler)
      (log0 log : list Event) :
  processDelivery G c ctx queueName d handler false log0 = Ok (tt, log) ->
  ProcessDelivery G c ctx queueName d handler log0 = Ok (None, log).
Proof. intros H. unfold ProcessDelivery, bind. by rewrite H. Qed.

(** C1. Acknowledgment policy of the per-delivery procedure.  The
    handler is called once, with the context [derived] that the tracer
    returned for the span and the delivery [d1] as extraction left it.
    Without auto-ack: when that call returns no error (or the handler
    is nil) the run issues one [Ack] and no [Nack]; when it returns an
    error, one [Nack] with requeue and no [Ack].  With auto-ack the run
    issues neither. *)
Theorem processDelivery_ack_policy (G : Globals) (cfg : ConsumerConfig)
        (parentCtx : Context) (queueName : string) (d : Delivery.t)
        (handler : option MessageHandler) :
  exists ctx1 d1 tracer name opts,
    ExtractFromDelivery G (cPropagator (consumerConfig (NewConsumer G cfg)))
                        parentCtx d = Ok (ctx1, d1)
    /\ cTracer (consumerConfig (NewConsumer G cfg)) = Some tracer
    /\ let derived := fst (Start tracer ctx1 name opts) in
       (exists log,
           processDelivery G (NewConsumer G cfg) parentCtx queueName d handler
                           false [] = Ok (tt, log)
           /\ spanRequests log = [(name, opts)]
           /\ handlerCalls log
              = match handler with Some _ => [(derived, d1)] | None => [] end
           /\ handlerAnswers log
              = match handler with Some h => [h derived d1] | None => [] end
           /\ match handlerResult handler derived d1 with
              | None =>
                  (exists answer,
                      acks log = [(Delivery.DeliveryTag d, false, answer)])
                  /\ nacks log = []
              | Some _ =>
                  (exists answer,
                      nacks log
                      = [(Delivery.DeliveryTag d, false, true, answer)])
                  /\ acks log = []
              end)
       /\ (exists log,
             processDelivery G (NewConsumer G cfg) parentCtx queueName d handler
                             true [] = Ok (tt, log)
             /\ spanRequests log = [(name, opts)]
             /\ handlerCalls log
                = match handler with Some _ => [(derived, d1)] | None => [] end
             /\ handlerAnswers log
                = match handler with Some h => [h derived d1] | None => [] end
             /\ acks log = [] /\ nacks log = []).
Proof.
  destruct (processDelivery_settles G cfg parentCtx queueName d handler)
    as (ctx1 & d1 & tracer & name & opts & Hext & Htracer & Hrun).
  exists ctx1, d1, tracer, name, opts.
  split; [exact Hext|]. split; [exact Htracer|]. split.
  - exact (Hrun false).
  - destruct (Hrun true) as (log & H1 & H2 & H3 & H4 & H5).
    exists log. auto.
Qed.

(** A handler that succeeds is acknowledged, one that fails is
    negatively acknowledged with requeue, and with auto-ack a failing
    handler leaves the delivery unsettled. *)
Lemma processDelivery_ack_policy_witness :
  (exists log,
      processDelivery w3cGlobals (NewDefaultConsumer w3cGlobals) Background
        "orders" (sampleDelivery acceptAll) (Some okHandler) false []
      = Ok (tt, log)
      /\ (exists answer, acks log = [(7%N, false, answer)])
      /\ nacks log = [])
  /\ (exists log,
        processDelivery w3cGlobals (NewDefaultConsumer w3cGlobals) Background
          "orders" (sampleDelivery acceptAll) (Some failingHandler) false []
        = Ok (tt, log)
        /\ (exists answer, nacks log = [(7%N, false, true, answer)])
        /\ acks log = [])
  /\ (exists log,
        processDelivery w3cGlobals (NewDefaultConsumer w3cGlobals) Background
          "orders" (sampleDelivery acceptAll) (Some failingHandler) true []
        = Ok (tt, log)
        /\ acks log = [] /\ nacks log = []).
Proof.
  split; [|split].
  - destruct (processDelivery_ack_policy w3cGlobals
                {| cTracer := None; cPropagator := None;
                   cSpanNameFormatter := None; cAttributeEnricher := None |}
                Background "orders" (sampleDelivery acceptAll) (Some okHandler))
      as (ctx1 & d1 & tracer & name & opts & _ & _
          & (log & Hrun & _ & _ & _ & Hpolicy) & _).
    exists log. split; [exact Hrun|]. exact Hpolicy.
  - destruct (processDelivery_ack_policy w3cGlobals
                {| cTracer := None; cPropagator := None;
                   cSpanNameFormatter := None; cAttributeEnricher := None |}
                Background "orders" (sampleDelivery acceptAll)
                (Some failingHandler))
      as (ctx1 & d1 & tracer & name & opts & _ & _
          & (log & Hrun & _ & _ & _ & Hpolicy) & _).
    exists log. split; [exact Hrun|]. exact Hpolicy.
  - destruct (processDelivery_ack_policy w3cGlobals
                {| cTracer := None; cPropagator := None;
                   cSpanNameFormatter := None; cAttributeEnricher := None |}
                Background "orders" (sampleDelivery acceptAll)
                (Some failingHandler))
      as (ctx1 & d1 & tracer & name & opts & _ & _ & _
          & (log & Hrun & _ & _ & _ & Hnone)).
    exists log. split; [exact Hrun|]. exact Hnone.
Defined.

(** C6. Without auto-ack: when the handler succeeded and the [Ack]
    failed, the wrapped ack error is recorded and the span status is
    set from the ack error; when the handler failed and the [Nack]
    failed, the wrapped nack error is recorded and the span status is
    set from the handler's error. *)
Theorem processDelivery_ack_failure (G : Globals) (cfg : ConsumerConfig)
        (parentCtx : Context) (queueName : string) (d : Delivery.t)
        (handler : option MessageHandler) :
  exists log,
    processDelivery G (NewConsumer G cfg) parentCtx queueName d handler false []
    = Ok (tt, log)
    /\ (forall ae,
           handlerOutcome log = None ->
           acks log = [(Delivery.DeliveryTag d, false, Some ae)] ->
           recorded log = [Errorf_w "failed to ack message: " ae; ae]
           /\ statuses log = [(CodeError, Error ae)])
    /\ (forall he ne,
           handlerOutcome log = Some he ->
           nacks log = [(Delivery.DeliveryTag d, false, true, Some ne)] ->
           recorded log = [Errorf_w "failed to nack message: " ne; he]
           /\ statuses log = [(CodeError, Error he)]).
Proof.
  delivery_cases G cfg parentCtx d handler;
    (split; [intros ae Ho Ha | intros he ne Ho Hn]);
    unfold handlerOutcome in Ho; simpl in Ho; simplify_eq; auto.
Qed.

(** A refused [Ack] after a successful handler, and a refused [Nack]
    after a failed one. *)
Lemma processDelivery_ack_failure_witness :
  (exists log,
      processDelivery w3cGlobals (NewDefaultConsumer w3cGlobals) Background
        "orders" (sampleDelivery refuseAll) (Some okHandler) false []
      = Ok (tt, log)
      /\ recorded log
         = [Errorf_w "failed to ack message: " (errorString "channel closed");
            errorString "channel closed"]
      /\ statuses log = [(CodeError, "channel closed")])
  /\ (exists log,
        processDelivery w3cGlobals (NewDefaultConsumer w3cGlobals) Background
          "orders" (sampleDelivery refuseAll) (Some failingHandler) false []
        = Ok (tt, log)
        /\ recorded log
           = [Errorf_w "failed to nack message: " (errorString "channel closed");
              errorString "boom"]
        /\ statuses log = [(CodeError, "boom")]).
Proof.
  split.
  - destruct (processDelivery_ack_failure w3cGlobals
                {| cTracer := None; cPropagator := None;
                   cSpanNameFormatter := None; cAttributeEnricher := None |}
                Background "orders" (sampleDelivery refuseAll) (Some okHandler))
      as (log & Hrun & Hack & _).
    exists log. split; [exact Hrun|].
    vm_compute in Hrun. injection Hrun as <-.
    apply (Hack (errorString "channel closed")); reflexivity.
  - destruct (processDelivery_ack_failure w3cGlobals
                {| cTracer := None; cPropagator := None;
                   cSpanNameFormatter := None; cAttributeEnricher := None |}
                Background "orders" (sampleDelivery refuseAll) (Some failingHandler))
      as (log & Hrun & _ & Hnack).
    exists log. split; [exact Hrun|].
    vm_compute in Hrun. injection Hrun as <-.
    apply (Hnack (errorString "boom") (errorString "channel closed")); reflexivity.
Defined.

(** C7 as stated fails: called directly on a delivery whose handler
    succeeds, [ProcessDelivery] issues an [Ack]. *)
Lemma ProcessDelivery_no_ack_counterexample :
  ~ (forall r log,
        ProcessDelivery w3cGlobals (NewDefaultConsumer w3cGlobals) Background
          "orders" (sampleDelivery acceptAll) (Some okHandler) []
        = Ok (r, log) ->
        acks log = [] /\ nacks log = []).
Proof.
  intros H.
  destruct (H None _ eq_refl) as [Ha _].
  vm_compute in Ha. discriminate Ha.
Qed.

(** C7, amended. [ProcessDelivery] runs the per-delivery procedure
    with auto-ack off, so acknowledgment handling is on.  The handler
    is called once, with the context [derived] that the tracer returned
    for the span and the delivery [d1] as extraction left it: when that
    call returns no error (or the handler is nil) the run issues one
    [Ack] and no [Nack]; when it returns an error, one [Nack] with
    requeue and no [Ack]. *)
Theorem ProcessDelivery_acknowledges (G : Globals) (cfg : ConsumerConfig)
        (ctx : Context) (queueName : string) (d : Delivery.t)
        (handler : option MessageHandler) :
  exists ctx1 d1 tracer name opts,
    ExtractFromDelivery G (cPropagator (consumerConfig (NewConsumer G cfg)))
                        ctx d = Ok (ctx1, d1)
    /\ cTracer (consumerConfig (NewConsumer G cfg)) = Some tracer
    /\ let derived := fst (Start tracer ctx1 name opts) in
       exists log,
         ProcessDelivery G (NewConsumer G cfg) ctx queueName d handler []
         = Ok (None, log)
         /\ processDelivery G (NewConsumer G cfg) ctx queueName d handler
                            false [] = Ok (tt, log)
         /\ spanRequests log = [(name, opts)]
         /\ handlerCalls log
            = match handler with Some _ => [(derived, d1)] | None => [] end
         /\ handlerAnswers log
            = match handler with Some h => [h derived d1] | None => [] end
         /\ match handlerResult handler derived d1 with
            | None =>
                (exists answer,
                    acks log = [(Delivery.DeliveryTag d, false, answer)])
                /\ nacks log = []
            | Some _ =>
                (exists answer,
                    nacks log
                    = [(Delivery.DeliveryTag d, false, true, answer)])
                /\ acks log = []
            end.
Proof.
  destruct (processDelivery_settles G cfg ctx queueName d handler)
    as (ctx1 & d1 & tracer & name & opts & Hext & Htracer & Hrun).
  exists ctx1, d1, tracer, name, opts.
  split; [exact Hext|]. split; [exact Htracer|].
  destruct (Hrun false) as (log & H1 & H2 & H3 & H4 & H5).
  exists log. split; [by apply ProcessDelivery_unfold|]. auto.
Qed.

(** Called directly, [ProcessDelivery] acknowledges a delivery whose
    handler succeeds and negatively acknowledges, with requeue, one
    whose handler fails. *)
Lemma ProcessDelivery_acknowledges_witness :
  (exists log,
      ProcessDelivery w3cGlobals (NewDefaultConsumer w3cGlobals) Background
        "orders" (sampleDelivery acceptAll) (Some okHandler) []
      = Ok (None, log)
      /\ (exists answer, acks log = [(7%N, false, answer)])
      /\ nacks log = [])
  /\ (exists log,
        ProcessDelivery w3cGlobals (NewDefaultConsumer w3cGlobals) Background
          "orders" (sampleDelivery acceptAll) (Some failingHandler) []
        = Ok (None, log)
        /\ (exists answer, nacks log = [(7%N, false, true, answer)])
        /\ acks log = []).
Proof.
  split.
  - destruct (ProcessDelivery_acknowledges w3cGlobals
                {| cTracer := None; cPropagator := None;
                   cSpanNameFormatter := None; cAttributeEnricher := None |}
                Background "orders" (sampleDelivery acceptAll) (Some okHandler))
      as (ctx1 & d1 & tracer & name & opts & _ & _
          & log & Hrun & _ & _ & _ & _ & Hpolicy).
    exists log. split; [exact Hrun|]. exact Hpolicy.
  - destruct (ProcessDelivery_acknowledges w3cGlobals
                {| cTracer := None; cPropagator := None;
                   cSpanNameFormatter := None; cAttributeEnricher := None |}
                Background "orders" (sampleDelivery acceptAll)
                (Some failingHandler))
      as (ctx1 & d1 & tracer & name & opts & _ & _
          & log & Hrun & _ & _ & _ & _ & Hpolicy).
    exists log. split; [exact Hrun|]. exact Hpolicy.
Defined.

(** C10. [ProcessDelivery] returns nil whatever the handler and the
    broker answer; the handler's error and a refused [Ack] or [Nack]
    are recorded on the span. *)
Theorem ProcessDelivery_returns_nil (G : Globals) (cfg : ConsumerConfig)
        (ctx : Context) (queueName : string) (d : Delivery.t)
        (handler : option MessageHandler) :
  exists log,
    ProcessDelivery G (NewConsumer G cfg) ctx queueName d handler [] = Ok (None, log)
    /\ (forall he, handlerOutcome log = Some he -> he ∈ recorded log)
    /\ (forall tag multiple ae,
           (tag, multiple, Some ae) ∈ acks log ->
           Errorf_w "failed to ack message: " ae ∈ recorded log)
    /\ (forall tag multiple requeue ne,
           (tag, multiple, requeue, Some ne) ∈ nacks log ->
           Errorf_w "failed to nack message: " ne ∈ recorded log).
Proof.
  delivery_cases G cfg ctx d handler;
    (split; [intros he Ho; unfold handlerOutcome in Ho; simpl in Ho;
             simplify_eq; repeat constructor|]);
    (split; [intros tag multiple ae Hin
            |intros tag multiple requeue ne Hin]);
    repeat (apply elem_of_cons in Hin as [Hin|Hin]);
    try (by apply elem_of_nil in Hin);
    simplify_eq; repeat constructor.
Qed.

(** A failing handler and a refused [Nack]: still nil, both recorded. *)
Lemma ProcessDelivery_returns_nil_witness :
  exists log,
    ProcessDelivery w3cGlobals (NewDefaultConsumer w3cGlobals) Background
      "orders" (sampleDelivery refuseAll) (Some failingHandler) []
    = Ok (None, log)
    /\ errorString "boom" ∈ recorded log
    /\ Errorf_w "failed to nack message: " (errorString "channel closed")
       ∈ recorded log.
Proof.
  destruct (ProcessDelivery_returns_nil w3cGlobals
              {| cTracer := None; cPropagator := None;
                 cSpanNameFormatter := None; cAttributeEnricher := None |}
              Background "orders" (sampleDelivery refuseAll) (Some failingHandler))
    as (log & Hrun & Hh & _ & Hn).
  exists log. split; [exact Hrun|].
  vm_compute in Hrun. injection Hrun as <-.
  split.
  - apply Hh. reflexivity.
  - apply (Hn 7%N false true). vm_compute. apply list_elem_of_here.
Defined.

End ConsumerProperties.

(** ** Publisher *)

Section PublisherProperties.
Import internal instrumentation.

Lemma InjectToPublishing_returns (G : Globals) (p : option Propagator)
      (ctx : Context) (msg : Publishing.t) :
  exists m', InjectToPublishing G p ctx msg
             = Ok (Publishing.withHeaders (Some m') msg).
Proof.
  unfold InjectToPublishing.
  destruct (Publishing.Headers msg) as [m|] eqn:Hm.
  - destruct (InjectContext_allocated G ctx m) as (m' & Hinj & _).
    exists m'. by rewrite Hm, Hinj.
  - destruct (InjectContext_allocated G ctx ∅) as (m' & Hinj & _).
    exists m'. cbn [Publishing.withHeaders Publishing.Headers]. unfold makeTable.
    by rewrite Hinj.
Qed.

(** [Publish] hands the client the message with the context injected,
    and no context. *)
Lemma Publish_send (G : Globals) (cfg : PublisherConfig) (ctx : Context)
      (channel : Channel) (exchange routingKey : string)
      (mandatory immediate : bool) (msg : Publishing.t) :
  exists derived span m',
    InjectToPublishing G (pPropagator (publisherConfig (NewPublisher G cfg)))
                       derived msg
    = Ok (Publishing.withHeaders (Some m') msg)
    /\ exists log,
        Publish G (NewPublisher G cfg) ctx channel exchange routingKey
                mandatory immediate msg []
        = Ok (publishAnswer channel exchange routingKey mandatory immediate
                            (Publishing.withHeaders (Some m') msg), log)
        /\ spansStarted log = [(ctx, derived, span)]
        /\ sends log = [(None, Publishing.withHeaders (Some m') msg)].
Proof.
  unfold Publish, bind, lift.
  destruct cfg as [[t|] pr [f|] [en|]]; simpl;
    match goal with
    | |- context [InjectToPublishing G ?p ?c ?m] =>
        destruct (InjectToPublishing_returns G p c msg) as (m' & Hinj);
        assert (Hinj' : InjectToPublishing G p c m
                        = Ok (Publishing.withHeaders (Some m') msg))
          by (rewrite <- Hinj; destruct msg as [[?|] ? ? ? ?]; reflexivity);
        rewrite Hinj'; unfold Channel_Publish, bind; simpl
    end;
    do 2 eexists; exists m'; (split; [exact Hinj|]);
    destruct (publishAnswer _ _ _ _ _ _); simpl;
    eexists; (split; [reflexivity|]); simpl; auto.
Qed.

(** [PublishWithConfirm] hands the client the context the tracer
    derived and the message with that context injected. *)
Lemma PublishWithConfirm_send (G : Globals) (cfg : PublisherConfig)
      (ctx : Context) (channel : Channel) (exchange routingKey : string)
      (mandatory immediate : bool) (msg : Publishing.t) :
  exists derived span m',
    InjectToPublishing G (pPropagator (publisherConfig (NewPublisher G cfg)))
                       derived msg
    = Ok (Publishing.withHeaders (Some m') msg)
    /\ exists log,
        PublishWithConfirm G (NewPublisher G cfg) ctx channel exchange routingKey
                           mandatory immediate msg []
        = Ok (publishWithDeferredConfirmAnswer
                channel derived exchange routingKey mandatory immediate
                (Publishing.withHeaders (Some m') msg), log)
        /\ spansStarted log = [(ctx, derived, span)]
        /\ sends log = [(Some derived, Publishing.withHeaders (Some m') msg)].
Proof.
  unfold PublishWithConfirm, bind, lift.
  destruct cfg as [[t|] pr [f|] [en|]]; simpl;
    match goal with
    | |- context [InjectToPublishing G ?p ?c ?m] =>
        destruct (InjectToPublishing_returns G p c msg) as (m' & Hinj);
        assert (Hinj' : InjectToPublishing G p c m
                        = Ok (Publishing.withHeaders (Some m') msg))
          by (rewrite <- Hinj; destruct msg as [[?|] ? ? ? ?]; reflexivity);
        rewrite Hinj';
        unfold Channel_PublishWithDeferredConfirmWithContext, bind; simpl
    end;
    do 2 eexists; exists m'; (split; [exact Hinj|]);
    destruct (publishWithDeferredConfirmAnswer _ _ _ _ _ _ _) as [conf [e|]];
    simpl; eexists; (split; [reflexivity|]); simpl; auto.
Qed.

(** C8, on the code: [Publish] called with a context sends the
    message with the derived context injected in its headers, but the
    send itself is given no context; [PublishWithConfirm] on the same
    input gives the send the derived context. *)
Theorem Publish_sends_without_context :
  (exists log derived span msg',
      Publish w3cGlobals (NewDefaultPublisher w3cGlobals) Background openChannel
              "orders" "order.created" false false sampleMessage []
      = Ok (None, log)
      /\ spansStarted log = [(Background, derived, span)]
      /\ derived ≠ Background
      /\ sends log = [(None, msg')])
  /\ (exists log derived span msg',
        PublishWithConfirm w3cGlobals (NewDefaultPublisher w3cGlobals) Background
                           openChannel "orders" "order.created" false false
                           sampleMessage []
        = Ok ((Some 1%N, None), log)
        /\ spansStarted log = [(Background, derived, span)]
        /\ sends log = [(Some derived, msg')]).
Proof.
  split.
  - do 4 eexists. split; [vm_compute; reflexivity|].
    split; [reflexivity|]. split; [discriminate|]. reflexivity.
  - do 4 eexists. split; [vm_compute; reflexivity|].
    split; reflexivity.
Qed.

End PublisherProperties.

(** * Further properties *)

(** ** Attribute builders *)

Section AttributeBuilders.
Import internal.

Ltac attr_cases :=
  rewrite ?nonEmpty_decide;
  repeat match goal with
    | |- context [decide (?s = "")] => destruct (decide (s = "")); simpl
    end.

Ltac by_decide :=
  match goal with
  | |- ?P => apply (bool_decide_unpack P); vm_compute; exact I
  end.

(** The common attributes never repeat a key, and there are between two
    and four of them. *)
Theorem GetCommonAttributes_keys_distinct (exchange routingKey : string) :
  NoDup (Key <$> GetCommonAttributes exchange routingKey)
  /\ 2 <= length (GetCommonAttributes exchange routingKey) <= 4.
Proof.
  unfold GetCommonAttributes. attr_cases;
    (split; [by_decide | simpl; lia]).
Qed.

Ltac elem_of_cases H :=
  repeat (apply elem_of_cons in H as [H|H]);
  try (by apply elem_of_nil in H);
  try discriminate H; simplify_eq.

(** The publish attributes extend the common ones: the operation is
    always there; the message id and the conversation id are there
    exactly when the message has a non-empty one; no value is empty and
    no key is repeated. *)
Theorem GetPublishAttributes_spec (exchange routingKey : string)
        (msg : Publishing.t) :
  let attrs := GetPublishAttributes exchange routingKey msg in
  GetCommonAttributes exchange routingKey `prefix_of` attrs
  /\ String_ MessagingOperation OperationPublish ∈ attrs
  /\ (forall v, String_ MessagingMessageID v ∈ attrs
                <-> v = Publishing.MessageId msg /\ v ≠ "")
  /\ (forall v, String_ MessagingConversationID v ∈ attrs
                <-> v = Publishing.CorrelationId msg /\ v ≠ "")
  /\ Forall (fun kv => Value kv ≠ "") attrs
  /\ NoDup (Key <$> attrs).
Proof.
  unfold GetPublishAttributes, GetCommonAttributes. attr_cases;
    (split; [eexists; by rewrite <- ?app_assoc|]);
    (split; [repeat constructor|]);
    (split; [intros v; split;
             [intros H; elem_of_cases H; auto
             |intros [-> Hne]; try done; repeat constructor]|]);
    (split; [intros v; split;
             [intros H; elem_of_cases H; auto
             |intros [-> Hne]; try done; repeat constructor]|]);
    (split; [repeat constructor; simpl; done | by_decide]).
Qed.

(** The message of the repository's test: both ids are reported. *)
Lemma GetPublishAttributes_spec_witness :
  String_ MessagingMessageID "msg-123"
    ∈ GetPublishAttributes "test-exchange" "test.key"
        (Publishing.mk None "" "corr-456" "msg-123" [])
  /\ String_ MessagingConversationID "corr-456"
       ∈ GetPublishAttributes "test-exchange" "test.key"
           (Publishing.mk None "" "corr-456" "msg-123" []).
Proof.
  destruct (GetPublishAttributes_spec "test-exchange" "test.key"
              (Publishing.mk None "" "corr-456" "msg-123" []))
    as (_ & _ & Hid & Hconv & _).
  split; [apply Hid|apply Hconv]; (split; [reflexivity|discriminate]).
Defined.

(** The consume attributes: system, kind queue and operation receive
    come first, whatever the delivery; destination, routing key, message
    id and conversation id are there exactly when their source is not
    empty; no value is empty and no key is repeated. *)
Theorem GetConsumeAttributes_spec (queueName : string) (d : Delivery.t) :
  let attrs := GetConsumeAttributes queueName d in
  [String_ MessagingSystem SystemRabbitMQ;
   String_ MessagingDestinationKind DestinationKindQueue;
   String_ MessagingOperation OperationReceive] `prefix_of` attrs
  /\ (forall v, String_ MessagingDestination v ∈ attrs
                <-> v = queueName /\ v ≠ "")
  /\ (forall v, String_ MessagingRabbitMQRoutingKey v ∈ attrs
                <-> v = Delivery.RoutingKey d /\ v ≠ "")
  /\ (forall v, String_ MessagingMessageID v ∈ attrs
                <-> v = Delivery.MessageId d /\ v ≠ "")
  /\ (forall v, String_ MessagingConversationID v ∈ attrs
                <-> v = Delivery.CorrelationId d /\ v ≠ "")
  /\ Forall (fun kv => Value kv ≠ "") attrs
  /\ NoDup (Key <$> attrs).
Proof.
  unfold GetConsumeAttributes. attr_cases;
    (split; [eexists; reflexivity|]);
    do 4 (split; [intros v; split;
                  [intros H; elem_of_cases H; auto
                  |intros [-> Hne]; try done; repeat constructor]|]);
    (split; [repeat constructor; simpl; done | by_decide]).
Qed.

(** The delivery of the repository's test: the queue is the destination. *)
Lemma GetConsumeAttributes_spec_witness :
  String_ MessagingDestination "test-queue"
    ∈ GetConsumeAttributes "test-queue"
        (Delivery.mk None None "corr-456" "msg-123" 1 "test.key" [])
  /\ String_ MessagingRabbitMQRoutingKey "test.key"
       ∈ GetConsumeAttributes "test-queue"
           (Delivery.mk None None "corr-456" "msg-123" 1 "test.key" []).
Proof.
  destruct (GetConsumeAttributes_spec "test-queue"
              (Delivery.mk None None "corr-456" "msg-123" 1 "test.key" []))
    as (_ & Hdest & Hkey & _).
  split; [apply Hdest|apply Hkey]; (split; [reflexivity|discriminate]).
Defined.

End AttributeBuilders.

(** ** Header carrier and propagation, further *)

Section CarrierFurther.
Import internal instrumentation.

(** [Set] is last-write-wins and touches one key: it succeeds on an
    allocated map, leaves every other entry (string or not) as it was,
    adds a key only when the key was absent, and a second [Set] of the
    same key replaces the value without adding a key. *)
Theorem HeaderCarrier_Set_overwrites (m : gmap string FieldValue)
        (key v1 v2 : string) :
  exists m1 m2,
    HeaderCarrier_Set (Some m) key v1 = Ok (Some m1)
    /\ HeaderCarrier_Set (Some m1) key v2 = Ok (Some m2)
    /\ HeaderCarrier_Get (Some m2) key = v2
    /\ (forall k, k ≠ key -> m2 !! k = m !! k)
    /\ length (HeaderCarrier_Keys (Some m1))
       = (if decide (is_Some (m !! key))
          then length (HeaderCarrier_Keys (Some m))
          else S (length (HeaderCarrier_Keys (Some m))))
    /\ length (HeaderCarrier_Keys (Some m2))
       = length (HeaderCarrier_Keys (Some m1)).
Proof.
  do 2 eexists. split; [reflexivity|]. split; [reflexivity|].
  split; [simpl; by rewrite lookup_insert_eq|].
  split; [intros k Hk; by rewrite !lookup_insert_ne|].
  rewrite !Keys_length. split.
  - destruct (decide (is_Some (m !! key))) as [Hs|Hn].
    + by rewrite map_size_insert_Some.
    + rewrite map_size_insert_None; [done|].
      by apply eq_None_not_Some.
  - rewrite map_size_insert_Some; [done|].
    rewrite lookup_insert_eq. by eexists.
Qed.

(** Two writes of one key next to a non-string entry. *)
Lemma HeaderCarrier_Set_overwrites_witness :
  exists m2 : gmap string FieldValue,
    setAll [("k", "a"); ("k", "b")] (Some {[ "retries" := VInt 3 ]})
    = Ok (Some m2)
    /\ m2 !! "retries" = Some (VInt 3)
    /\ HeaderCarrier_Get (Some m2) "k" = "b".
Proof.
  destruct (HeaderCarrier_Set_overwrites {[ "retries" := VInt 3 ]} "k" "a" "b")
    as (m1 & m2 & H1 & H2 & Hget & Hother & _).
  exists m2. split.
  - simpl. injection H1 as <-. exact H2.
  - split; [|exact Hget].
    rewrite (Hother "retries"); [reflexivity|discriminate].
Defined.

(** [InjectToHeaders] never allocates and never panics: a nil map stays
    nil, so nothing is injected into it; an allocated map stays
    allocated, keeps every key, and keeps the value of every key the
    propagator did not set. *)
Theorem InjectToHeaders_in_place (G : Globals) (p : option Propagator)
        (ctx : Context) (headers : Table) :
  exists headers',
    InjectToHeaders G p ctx headers = Ok headers'
    /\ (headers = None -> headers' = None)
    /\ (forall m, headers = Some m ->
          exists m', headers' = Some m'
            /\ dom m ⊆ dom m'
            /\ forall k,
                k ∉ written (C := HeaderCarrier)
                            (tmpInject (GetTextMapPropagator G) ctx) (Some m) ->
                m' !! k = m !! k).
Proof.
  unfold InjectToHeaders. destruct headers as [m|].
  - destruct (InjectContext_allocated G ctx m) as (m' & Hinj & _ & Hdom & Hfr).
    exists (Some m'). split; [exact Hinj|]. split; [discriminate|].
    intros m0 [= <-]. eauto.
  - exists None. split; [reflexivity|]. split; [done|discriminate].
Qed.

(** Injection into a map that holds non-string entries. *)
Lemma InjectToHeaders_in_place_witness :
  exists m' : gmap string FieldValue,
    InjectToHeaders w3cGlobals NewPropagator tracedContext
                    (Some {[ "retries" := VInt 3 ]}) = Ok (Some m')
    /\ m' !! "retries" = Some (VInt 3).
Proof.
  destruct (InjectToHeaders_in_place w3cGlobals NewPropagator tracedContext
              (Some {[ "retries" := VInt 3 ]})) as (h' & Hrun & _ & Hkeep).
  destruct (Hkeep _ eq_refl) as (m' & -> & _ & Hfr).
  exists m'. split; [exact Hrun|].
  rewrite Hfr; [reflexivity|].
  match goal with
  | |- _ ∉ ?w => let w' := eval vm_compute in w in change w with w'
  end.
  apply not_elem_of_cons. split; [discriminate|apply not_elem_of_nil].
Defined.

(** [ExtractFromDelivery] returns the delivery it was given with at most
    its header map changed: a nil map stays nil, and an allocated one
    keeps every key and the value of every key the propagator did not
    set. *)
Theorem ExtractFromDelivery_preserves (G : Globals) (p : option Propagator)
        (ctx : Context) (d : Delivery.t) :
  exists ctx' headers',
    ExtractFromDelivery G p ctx d = Ok (ctx', Delivery.withHeaders headers' d)
    /\ (Delivery.Headers d = None -> headers' = None /\ ctx' = ctx)
    /\ (forall m, Delivery.Headers d = Some m ->
          exists m', headers' = Some m'
            /\ dom m ⊆ dom m'
            /\ forall k,
                k ∉ written (C := HeaderCarrier)
                            (tmpExtract (GetTextMapPropagator G) ctx) (Some m) ->
                m' !! k = m !! k).
Proof.
  unfold ExtractFromDelivery, ExtractContext.
  destruct (Delivery.Headers d) as [m|].
  - destruct (run_frame Context (tmpExtract (GetTextMapPropagator G) ctx) m)
      as (ctx' & m' & Hrun & Hdom & Hfr).
    exists ctx', (Some m'). rewrite Hrun. split; [reflexivity|].
    split; [discriminate|]. intros m0 [= <-]. eauto.
  - exists ctx, None. split; [reflexivity|]. split; [done|discriminate].
Qed.

(** Extraction with the W3C propagator leaves the headers alone. *)
Lemma ExtractFromDelivery_preserves_witness :
  exists ctx' (m' : gmap string FieldValue),
    ExtractFromDelivery w3cGlobals NewPropagator Background
      (Delivery.mk None (Some {[ "test" := VString "value" ]}) "" "" 1 "" [])
    = Ok (ctx', Delivery.mk None (Some m') "" "" 1 "" [])
    /\ m' !! "test" = Some (VString "value").
Proof.
  destruct (ExtractFromDelivery_preserves w3cGlobals NewPropagator Background
              (Delivery.mk None (Some {[ "test" := VString "value" ]}) "" "" 1 "" []))
    as (ctx' & h' & Hrun & _ & Hkeep).
  destruct (Hkeep _ eq_refl) as (m' & -> & _ & Hfr).
  exists ctx', m'. split; [exact Hrun|].
  rewrite Hfr; [reflexivity|].
  match goal with
  | |- _ ∉ ?w => let w' := eval vm_compute in w in change w with w'
  end.
  apply not_elem_of_nil.
Defined.

End CarrierFurther.

(** ** Computations only append to the log *)

Section AppendOnly.

Lemma appendOnly_ret {A} (a : A) : appendOnly (ret a).
Proof. intros log0. unfold ret. by rewrite app_nil_r. Qed.

Lemma appendOnly_emit (e : Event) : appendOnly (emit e).
Proof. intros log0. reflexivity. Qed.

Lemma appendOnly_lift {A} (r : Result A) : appendOnly (lift r).
Proof. intros log0. destruct r; simpl; [by rewrite app_nil_r|done]. Qed.

Lemma appendOnly_deref {A} (o : option A) : appendOnly (deref o).
Proof. destruct o; [apply appendOnly_ret|apply appendOnly_lift]. Qed.

Lemma appendOnly_bind {A B} (m : M A) (f : A -> M B) :
  appendOnly m -> (forall a, appendOnly (f a)) -> appendOnly (bind m f).
Proof.
  intros Hm Hf log0. unfold bind. rewrite (Hm log0).
  destruct (m []) as [[a l]|msg]; [|done].
  simpl. rewrite (Hf a (log0 ++ l)), (Hf a l).
  destruct (f a []) as [[b l']|msg]; [|done].
  by rewrite app_assoc.
Qed.

Lemma appendOnly_run {A} (m : M A) (a : A) (log0 log : list Event) :
  appendOnly m -> m [] = Ok (a, log) -> m log0 = Ok (a, log0 ++ log).
Proof. intros Hm Hrun. by rewrite (Hm log0), Hrun. Qed.

End AppendOnly.

Ltac append_only :=
  repeat first
    [ apply appendOnly_ret | apply appendOnly_emit | apply appendOnly_lift
    | apply appendOnly_deref
    | apply appendOnly_bind; [|intros ?]
    | progress cbv zeta
    | match goal with
      | |- appendOnly (match ?x with _ => _ end) => destruct x
      end ].

Section ConsumerFurther.
Import internal instrumentation.

Lemma processDelivery_appendOnly (G : Globals) (c : Consumer) (ctx : Context)
      (queueName : string) (d : Delivery.t) (handler : option MessageHandler)
      (autoAck : bool) :
  appendOnly (processDelivery G c ctx queueName d handler autoAck).
Proof.
  unfold processDelivery, SafeSetSpanStatus, Delivery_Ack, Delivery_Nack.
  append_only.
Qed.

Ltac settle_cases :=
  repeat match goal with
    | |- context [match ?x with Some _ => _ | None => _ end] =>
        destruct x eqn:?; simpl
    end.

(** One run of the per-delivery procedure, for a consumer made by
    [NewConsumer]: what it starts, calls, sets and ends. *)
Lemma processDelivery_run (G : Globals) (cfg : ConsumerConfig)
      (parentCtx : Context) (queueName : string) (d : Delivery.t)
      (handler : option MessageHandler) (autoAck : bool) :
  exists ctx1 d1 derived span,
    ExtractFromDelivery G (cPropagator (consumerConfig (NewConsumer G cfg)))
                        parentCtx d = Ok (ctx1, d1)
    /\ exists log,
        processDelivery G (NewConsumer G cfg) parentCtx queueName d handler
                        autoAck [] = Ok (tt, log)
        /\ spansStarted log = [(ctx1, derived, span)]
        /\ spansEnded log = [span]
        /\ last log = Some (EvSpanEnd span)
        /\ handlerCalls log
           = match handler with Some _ => [(derived, d1)] | None => [] end
        /\ statuses log = [statusOf (finalError log)]
        /\ settled log = if autoAck then [] else [Delivery.DeliveryTag d].
Proof.
  destruct (ExtractFromDelivery_returns G
              (cPropagator (consumerConfig (NewConsumer G cfg))) parentCtx d)
    as (ctx1 & d1 & Hext & Htag & Hack).
  exists ctx1, d1.
  unfold processDelivery, bind, lift; rewrite Hext.
  unfold Delivery_Ack, Delivery_Nack, bind; cbn [fst snd];
    rewrite ?Hack, ?Htag.
  destruct cfg as [[?|] ? [?|] [?|]]; simpl; do 2 eexists;
    (split; [reflexivity|]);
    destruct handler as [?|], autoAck; simpl; settle_cases;
    eexists; (split; [reflexivity|]); repeat split.
Qed.

(** Span lifecycle of the per-delivery procedure, whatever the handler
    and the broker answer and whether auto-ack is on: one span is
    started, its parent being the context extracted from the delivery;
    the handler, if any, is called once, with the context derived for
    that span; one status is set, from the handler's error or else the
    error of the positive acknowledgment; the span is ended once, and
    that is the last thing done, after any acknowledgment. *)
Theorem processDelivery_span_lifecycle (G : Globals) (cfg : ConsumerConfig)
        (parentCtx : Context) (queueName : string) (d : Delivery.t)
        (handler : option MessageHandler) (autoAck : bool) :
  exists ctx1 d1 derived span,
    ExtractFromDelivery G (cPropagator (consumerConfig (NewConsumer G cfg)))
                        parentCtx d = Ok (ctx1, d1)
    /\ exists log,
        processDelivery G (NewConsumer G cfg) parentCtx queueName d handler
                        autoAck [] = Ok (tt, log)
        /\ spansStarted log = [(ctx1, derived, span)]
        /\ spansEnded log = [span]
        /\ last log = Some (EvSpanEnd span)
        /\ handlerCalls log
           = match handler with Some _ => [(derived, d1)] | None => [] end
        /\ statuses log = [statusOf (finalError log)].
Proof.
  destruct (processDelivery_run G cfg parentCtx queueName d handler autoAck)
    as (ctx1 & d1 & derived & span & Hext & log & H1 & H2 & H3 & H4 & H5 & H6 & _).
  exists ctx1, d1, derived, span. split; [exact Hext|].
  exists log. auto 10.
Qed.

(** [WrapDelivery] starts the span the per-delivery procedure would
    start, and nothing else: it returns the derived context and the
    span, and leaves acknowledging, setting the status and ending the
    span to the caller. *)
Theorem WrapDelivery_starts_only (G : Globals) (cfg : ConsumerConfig)
        (ctx : Context) (queueName : string) (d : Delivery.t) :
  exists ctx1 d1 derived span start,
    ExtractFromDelivery G (cPropagator (consumerConfig (NewConsumer G cfg)))
                        ctx d = Ok (ctx1, d1)
    /\ WrapDelivery G (NewConsumer G cfg) ctx queueName d []
       = Ok ((derived, span), [start])
    /\ spansStarted [start] = [(ctx1, derived, span)]
    /\ forall (handler : option MessageHandler) (autoAck : bool),
        exists log,
          processDelivery G (NewConsumer G cfg) ctx queueName d handler
                          autoAck [] = Ok (tt, log)
          /\ head log = Some start.
Proof.
  destruct (ExtractFromDelivery_returns G
              (cPropagator (consumerConfig (NewConsumer G cfg))) ctx d)
    as (ctx1 & d1 & Hext & Htag & Hack).
  exists ctx1, d1.
  unfold WrapDelivery, processDelivery, bind, lift; rewrite Hext.
  unfold Delivery_Ack, Delivery_Nack, bind; cbn [fst snd];
    rewrite ?Hack, ?Htag.
  destruct cfg as [[?|] ? [?|] [?|]]; simpl;
    match goal with
    | |- context [Start ?t ?c ?n ?o] => destruct (Start t c n o) as [derived span]
    end;
    simpl; do 3 eexists;
    (split; [reflexivity|]); (split; [reflexivity|]);
    (split; [reflexivity|]);
    intros [?|] [|]; simpl; settle_cases;
    eexists; (split; [reflexivity|]); reflexivity.
Qed.

(** A consumer or a publisher that no constructor filled in panics on
    first use, at the call through its nil span-name formatter, before
    any span is started. *)
Theorem zero_value_panics (G : Globals) (ctx : Context) (queueName : string)
        (d : Delivery.t) (handler : option MessageHandler) (autoAck : bool)
        (channel : Channel) (exchange routingKey : string)
        (mandatory immediate : bool) (msg : Publishing.t)
        (log0 : list Event) :
  (exists reason,
      processDelivery G zeroConsumer ctx queueName d handler autoAck log0
      = Panic reason)
  /\ (exists reason,
        WrapDelivery G zeroConsumer ctx queueName d log0 = Panic reason)
  /\ (exists reason,
        Publish G zeroPublisher ctx channel exchange routingKey
                mandatory immediate msg log0 = Panic reason)
  /\ (exists reason,
        PublishWithConfirm G zeroPublisher ctx channel exchange routingKey
                           mandatory immediate msg log0 = Panic reason).
Proof.
  destruct (ExtractFromDelivery_returns G None ctx d) as (ctx1 & d1 & Hext & _).
  repeat split;
    unfold processDelivery, WrapDelivery, Publish, PublishWithConfirm,
           bind, lift; simpl; rewrite ?Hext; simpl; eauto.
Qed.

(** The consume loop settles every delivery of the stream once, in
    stream order, whatever the handler answers; with auto-ack it settles
    none.  It starts and ends one span per delivery and calls the
    handler once per delivery. *)
Lemma consumeLoop_run (G : Globals) (cfg : ConsumerConfig) (ctx : Context)
      (queueName : string) (handler : option MessageHandler) (autoAck : bool)
      (deliveries : list Delivery.t) :
  exists log,
    consumeLoop G (NewConsumer G cfg) ctx queueName deliveries handler autoAck []
    = Ok (tt, log)
    /\ settled log
       = (if autoAck then [] else Delivery.DeliveryTag <$> deliveries)
    /\ length (spansStarted log) = length deliveries
    /\ length (spansEnded log) = length deliveries
    /\ length (handlerCalls log)
       = match handler with Some _ => length deliveries | None => 0 end.
Proof.
  induction deliveries as [|d rest IH]; simpl.
  - exists []. by destruct autoAck, handler.
  - destruct (processDelivery_run G cfg ctx queueName d handler autoAck)
      as (ctx1 & d1 & derived & span & _ & l & Hrun & Hs & He & _ & Hh & _ & Hset).
    destruct IH as (l' & Hrest & Hset' & Hs' & He' & Hh').
    exists (l ++ l'). unfold bind. rewrite Hrun.
    split.
    { apply (appendOnly_run _ _ l l'); [|exact Hrest].
      clear. induction rest as [|d' rest IH]; simpl; [apply appendOnly_ret|].
      apply appendOnly_bind; [apply processDelivery_appendOnly|intros _; exact IH]. }
    unfold settled, spansStarted, spansEnded, handlerCalls in *.
    rewrite !omap_app, !length_app, Hset, Hset', Hs, Hs', He, He', Hh, Hh'.
    by destruct autoAck, handler.
Qed.

(** [ConsumeWithHandler]: when the stream cannot be opened the error
    comes back wrapped and nothing is processed; otherwise it returns
    nil and every delivery of the stream is settled once, in order
    (none with auto-ack), each under a span of its own. *)
Theorem ConsumeWithHandler_spec (G : Globals) (cfg : ConsumerConfig)
        (ctx : Context) (channel : Channel) (queueName consumerTag : string)
        (autoAck exclusive noLocal noWait : bool) (args : Table)
        (handler : option MessageHandler) :
  match consumeAnswer channel ctx queueName consumerTag
                      autoAck exclusive noLocal noWait args with
  | inr err =>
      ConsumeWithHandler G (NewConsumer G cfg) ctx channel queueName consumerTag
                         autoAck exclusive noLocal noWait args handler []
      = Ok (Some (wrapError ("failed to start consuming: " +:+ Error err) err), [])
  | inl deliveries =>
      exists log,
        ConsumeWithHandler G (NewConsumer G cfg) ctx channel queueName consumerTag
                           autoAck exclusive noLocal noWait args handler []
        = Ok (None, log)
        /\ settled log
           = (if autoAck then [] else Delivery.DeliveryTag <$> deliveries)
        /\ length (spansStarted log) = length deliveries
        /\ length (spansEnded log) = length deliveries
        /\ length (handlerCalls log)
           = match handler with Some _ => length deliveries | None => 0 end
  end.
Proof.
  unfold ConsumeWithHandler.
  destruct (consumeAnswer _ _ _ _ _ _ _ _ _) as [deliveries|err]; [|reflexivity].
  destruct (consumeLoop_run G cfg ctx queueName handler autoAck deliveries)
    as (log & Hrun & H).
  exists log. unfold bind. by rewrite Hrun.
Qed.

End ConsumerFurther.

(** ** Publisher, further *)

Section PublisherFurther.
Import internal instrumentation.

Ltac inject_step G msg :=
  match goal with
  | |- context [InjectToPublishing G ?p ?c ?m] =>
      let m' := fresh "m'" in
      let Hinj := fresh "Hinj" in
      let Hinj' := fresh "Hinj'" in
      destruct (InjectToPublishing_returns G p c msg) as (m' & Hinj);
      assert (Hinj' : InjectToPublishing G p c m
                      = Ok (Publishing.withHeaders (Some m') msg))
        by (rewrite <- Hinj; destruct msg as [[?|] ? ? ? ?]; reflexivity);
      rewrite Hinj';
      unfold Channel_Publish, Channel_PublishWithDeferredConfirmWithContext, bind;
      simpl; do 2 eexists; exists m'; (split; [exact Hinj|])
  end.

(** One run of [Publish], for a publisher made by [NewPublisher]. *)
Lemma Publish_run (G : Globals) (cfg : PublisherConfig) (ctx : Context)
      (channel : Channel) (exchange routingKey : string)
      (mandatory immediate : bool) (msg : Publishing.t) :
  exists derived span m',
    InjectToPublishing G (pPropagator (publisherConfig (NewPublisher G cfg)))
                       derived msg
    = Ok (Publishing.withHeaders (Some m') msg)
    /\ exists log,
        Publish G (NewPublisher G cfg) ctx channel exchange routingKey
                mandatory immediate msg []
        = Ok (publishAnswer channel exchange routingKey mandatory immediate
                            (Publishing.withHeaders (Some m') msg), log)
        /\ spansStarted log = [(ctx, derived, span)]
        /\ spansEnded log = [span]
        /\ last log = Some (EvSpanEnd span)
        /\ statuses log
           = [statusOf (publishAnswer channel exchange routingKey mandatory
                          immediate (Publishing.withHeaders (Some m') msg))]
        /\ recorded log
           = match publishAnswer channel exchange routingKey mandatory
                   immediate (Publishing.withHeaders (Some m') msg) with
             | Some e => [e]
             | None => []
             end
        /\ sends log = [(None, Publishing.withHeaders (Some m') msg)].
Proof.
  unfold Publish, bind, lift.
  destruct cfg as [[t|] pr [f|] [en|]]; simpl; inject_step G msg;
    destruct (publishAnswer _ _ _ _ _ _); simpl;
    eexists; (split; [reflexivity|]); simpl; auto 10.
Qed.

(** One run of [PublishWithConfirm]. *)
Lemma PublishWithConfirm_run (G : Globals) (cfg : PublisherConfig)
      (ctx : Context) (channel : Channel) (exchange routingKey : string)
      (mandatory immediate : bool) (msg : Publishing.t) :
  exists derived span m',
    InjectToPublishing G (pPropagator (publisherConfig (NewPublisher G cfg)))
                       derived msg
    = Ok (Publishing.withHeaders (Some m') msg)
    /\ exists log,
        PublishWithConfirm G (NewPublisher G cfg) ctx channel exchange routingKey
                           mandatory immediate msg []
        = Ok (publishWithDeferredConfirmAnswer
                channel derived exchange routingKey mandatory immediate
                (Publishing.withHeaders (Some m') msg), log)
        /\ spansStarted log = [(ctx, derived, span)]
        /\ spansEnded log = [span]
        /\ last log = Some (EvSpanEnd span)
        /\ statuses log
           = [statusOf (snd (publishWithDeferredConfirmAnswer
                               channel derived exchange routingKey mandatory
                               immediate (Publishing.withHeaders (Some m') msg)))]
        /\ sends log = [(Some derived, Publishing.withHeaders (Some m') msg)].
Proof.
  unfold PublishWithConfirm, bind, lift.
  destruct cfg as [[t|] pr [f|] [en|]]; simpl; inject_step G msg;
    destruct (publishWithDeferredConfirmAnswer _ _ _ _ _ _ _) as [conf [e|]];
    simpl; eexists; (split; [reflexivity|]); simpl; auto 10.
Qed.

(** [Publish] never panics and returns exactly what the client's send
    answered.  It starts one span from the caller's context, sends once,
    sets one status (Ok, or Error with the error's message, the error
    being recorded), then ends the span, on success and on error
    alike. *)
Theorem Publish_span_lifecycle (G : Globals) (cfg : PublisherConfig)
        (ctx : Context) (channel : Channel) (exchange routingKey : string)
        (mandatory immediate : bool) (msg : Publishing.t) :
  exists derived span sent log,
    Publish G (NewPublisher G cfg) ctx channel exchange routingKey
            mandatory immediate msg []
    = Ok (publishAnswer channel exchange routingKey mandatory immediate sent, log)
    /\ sends log = [(None, sent)]
    /\ spansStarted log = [(ctx, derived, span)]
    /\ spansEnded log = [span]
    /\ last log = Some (EvSpanEnd span)
    /\ statuses log
       = [statusOf (publishAnswer channel exchange routingKey mandatory
                                  immediate sent)]
    /\ recorded log
       = match publishAnswer channel exchange routingKey mandatory
               immediate sent with
         | Some e => [e]
         | None => []
         end.
Proof.
  destruct (Publish_run G cfg ctx channel exchange routingKey mandatory
              immediate msg)
    as (derived & span & m' & _ & log & H1 & H2 & H3 & H4 & H5 & H6 & H7).
  exists derived, span, (Publishing.withHeaders (Some m') msg), log. auto 10.
Qed.

(** [PublishWithConfirm] never panics and returns the confirmation and
    the error exactly as the client answered them.  It starts one span
    from the caller's context, sends once with the context derived for
    that span, sets one status from the error, then ends the span. *)
Theorem PublishWithConfirm_span_lifecycle (G : Globals) (cfg : PublisherConfig)
        (ctx : Context) (channel : Channel) (exchange routingKey : string)
        (mandatory immediate : bool) (msg : Publishing.t) :
  exists derived span sent log,
    PublishWithConfirm G (NewPublisher G cfg) ctx channel exchange routingKey
                       mandatory immediate msg []
    = Ok (publishWithDeferredConfirmAnswer
            channel derived exchange routingKey mandatory immediate sent, log)
    /\ sends log = [(Some derived, sent)]
    /\ spansStarted log = [(ctx, derived, span)]
    /\ spansEnded log = [span]
    /\ last log = Some (EvSpanEnd span)
    /\ statuses log
       = [statusOf (snd (publishWithDeferredConfirmAnswer
                           channel derived exchange routingKey mandatory
                           immediate sent))].
Proof.
  destruct (PublishWithConfirm_run G cfg ctx channel exchange routingKey
              mandatory immediate msg)
    as (derived & span & m' & _ & log & H1 & H2 & H3 & H4 & H5 & H6).
  exists derived, span, (Publishing.withHeaders (Some m') msg), log. auto 10.
Qed.

Lemma InjectToPublishing_frame (G : Globals) (p : option Propagator)
      (ctx : Context) (msg : Publishing.t) (m' : gmap string FieldValue) :
  InjectToPublishing G p ctx msg = Ok (Publishing.withHeaders (Some m') msg) ->
  run (C := HeaderCarrier) (tmpInject (GetTextMapPropagator G) ctx)
      (Some (default ∅ (Publishing.Headers msg))) = Ok (tt, Some m')
  /\ forall (m : gmap string FieldValue) (k : string) (v : FieldValue),
      Publishing.Headers msg = Some m -> m !! k = Some v ->
      is_Some (m' !! k)
      /\ (k ∉ written (C := HeaderCarrier)
                      (tmpInject (GetTextMapPropagator G) ctx) (Some m) ->
          m' !! k = Some v).
Proof.
  unfold InjectToPublishing.
  destruct (Publishing.Headers msg) as [m|] eqn:Hm.
  - destruct (InjectContext_allocated G ctx m) as (m1 & Hinj & Hrun & Hdom & Hfr).
    rewrite Hm, Hinj. intros [= <-]. split; [exact Hrun|].
    intros m0 k v [= <-] Hk. split.
    + apply elem_of_dom, Hdom, elem_of_dom. eauto.
    + intros Hw. by rewrite (Hfr k Hw).
  - destruct (InjectContext_allocated G ctx ∅) as (m1 & Hinj & Hrun & _).
    cbn [Publishing.withHeaders Publishing.Headers]. unfold makeTable.
    rewrite Hinj. intros [= <-]. split; [exact Hrun|]. discriminate.
Qed.

(** The message [Publish] sends is the caller's message with only its
    headers changed: the header map is allocated, every entry the caller
    put there is still there, and its value is the caller's unless the
    propagator set that very key for the derived context. *)
Theorem Publish_keeps_message (G : Globals) (cfg : PublisherConfig)
        (ctx : Context) (channel : Channel) (exchange routingKey : string)
        (mandatory immediate : bool) (msg : Publishing.t) :
  exists derived span (m' : gmap string FieldValue) answer log,
    Publish G (NewPublisher G cfg) ctx channel exchange routingKey
            mandatory immediate msg [] = Ok (answer, log)
    /\ spansStarted log = [(ctx, derived, span)]
    /\ sends log = [(None, Publishing.withHeaders (Some m') msg)]
    /\ forall (m : gmap string FieldValue) (k : string) (v : FieldValue),
        Publishing.Headers msg = Some m -> m !! k = Some v ->
        is_Some (m' !! k)
        /\ (k ∉ written (C := HeaderCarrier)
                        (tmpInject (GetTextMapPropagator G) derived) (Some m) ->
            m' !! k = Some v).
Proof.
  destruct (Publish_run G cfg ctx channel exchange routingKey mandatory
              immediate msg)
    as (derived & span & m' & Hinj & log & H1 & H2 & _ & _ & _ & _ & H7).
  exists derived, span, m'. do 2 eexists. split; [exact H1|]. split; [exact H2|].
  split; [exact H7|].
  apply (InjectToPublishing_frame G _ derived msg m' Hinj).
Qed.

(** A message published with a business header. *)
Lemma Publish_keeps_message_witness :
  exists (m' : gmap string FieldValue) answer log,
    Publish w3cGlobals (NewDefaultPublisher w3cGlobals) Background openChannel
            "orders" "order.created" false false
            (Publishing.mk (Some {[ "tenant" := VString "acme" ]}) "" "" "" []) []
    = Ok (answer, log)
    /\ sends log = [(None, Publishing.mk (Some m') "" "" "" [])]
    /\ m' !! "tenant" = Some (VString "acme").
Proof.
  destruct (Publish_keeps_message w3cGlobals
              {| pTracer := None; pPropagator := None;
                 pSpanNameFormatter := None; pAttributeEnricher := None |}
              Background openChannel "orders" "order.created" false false
              (Publishing.mk (Some {[ "tenant" := VString "acme" ]}) "" "" "" []))
    as (derived & span & m' & answer & log & Hrun & Hstart & Hsend & Hkeep).
  exists m', answer, log. split; [exact Hrun|]. split; [exact Hsend|].
  vm_compute in Hrun. injection Hrun as <- <-.
  injection Hstart as <- _.
  apply (Hkeep {[ "tenant" := VString "acme" ]} "tenant" (VString "acme"));
    [reflexivity|reflexivity|].
  match goal with
  | |- _ ∉ ?w => let w' := eval vm_compute in w in change w with w'
  end.
  apply not_elem_of_cons. split; [discriminate|apply not_elem_of_nil].
Defined.

End PublisherFurther.

(** ** From publisher to consumer *)

Section EndToEnd.
Import internal instrumentation wrappers.

Lemma publishing_round_trip (G : Globals) (p q : option Propagator)
      (ctx parent : Context) (msg : Publishing.t)
      (m' : gmap string FieldValue) (d : Delivery.t) :
  RoundTrips (GetTextMapPropagator G) ->
  IsValid (SpanContextFromContext ctx) = true ->
  InjectToPublishing G p ctx msg = Ok (Publishing.withHeaders (Some m') msg) ->
  Delivery.Headers d = Some m' ->
  exists ctx1 d1,
    ExtractFromDelivery G q parent d = Ok (ctx1, d1) /\ sameTrace ctx1 ctx.
Proof.
  intros HP Hv Hinj Hd.
  apply InjectToPublishing_frame in Hinj as [Hrun _].
  destruct (ExtractContext_allocated G parent m') as (ctx1 & m'' & Hext).
  exists ctx1, (Delivery.withHeaders (Some m'') d). split.
  - unfold ExtractFromDelivery. by rewrite Hd, Hext.
  - eapply (HP HeaderCarrier allocated HeaderCarrier_keeps_contract
               ctx parent ctx1 _ (Some m') (Some m''));
      [|exact Hv|exact Hrun|exact Hext].
    by eexists.
Qed.

(** Producer and consumer are linked: when the registered propagator
    round-trips and the tracer gives the producer span a valid span
    context, a delivery that carries the headers of the message
    [Publish] sent is processed under a consumer span whose parent
    context has the trace and span identifiers of the producer's derived
    context. *)
Theorem publish_consume_linkage (G : Globals) (pcfg : PublisherConfig)
        (ctx : Context) (channel : Channel) (exchange routingKey : string)
        (mandatory immediate : bool) (msg : Publishing.t) :
  RoundTrips (GetTextMapPropagator G) ->
  exists derived span sent answer plog,
    Publish G (NewPublisher G pcfg) ctx channel exchange routingKey
            mandatory immediate msg [] = Ok (answer, plog)
    /\ spansStarted plog = [(ctx, derived, span)]
    /\ sends plog = [(None, sent)]
    /\ (IsValid (SpanContextFromContext derived) = true ->
        forall (ccfg : ConsumerConfig) (parent : Context) (queueName : string)
               (d : Delivery.t) (handler : option MessageHandler)
               (autoAck : bool),
          Delivery.Headers d = Publishing.Headers sent ->
          exists ctx1 cderived cspan clog,
            processDelivery G (NewConsumer G ccfg) parent queueName d handler
                            autoAck [] = Ok (tt, clog)
            /\ spansStarted clog = [(ctx1, cderived, cspan)]
            /\ sameTrace ctx1 derived).
Proof.
  intros HP.
  destruct (Publish_run G pcfg ctx channel exchange routingKey mandatory
              immediate msg)
    as (derived & span & m' & Hinj & plog & H1 & H2 & _ & _ & _ & _ & H7).
  exists derived, span, (Publishing.withHeaders (Some m') msg). do 2 eexists.
  split; [exact H1|]. split; [exact H2|]. split; [exact H7|].
  intros Hv ccfg parent queueName d handler autoAck Hd.
  cbn [Publishing.withHeaders Publishing.Headers] in Hd.
  destruct (processDelivery_run G ccfg parent queueName d handler autoAck)
    as (ctx1 & d1 & cderived & cspan & Hext & clog & Hrun & Hs & _).
  destruct (publishing_round_trip G _
              (cPropagator (consumerConfig (NewConsumer G ccfg)))
              derived parent msg m' d HP Hv Hinj Hd)
    as (ctx1' & d1' & Hext' & Hsame).
  rewrite Hext in Hext'. injection Hext' as <- <-.
  exists ctx1, cderived, cspan, clog. auto.
Qed.

(** The linkage with the W3C propagator: the consumer span's parent
    carries the producer span's identifiers. *)
Lemma publish_consume_linkage_witness :
  exists sent answer plog ctx1 cderived cspan clog,
    Publish w3cGlobals (NewDefaultPublisher w3cGlobals) Background openChannel
            "orders" "order.created" false false sampleMessage []
    = Ok (answer, plog)
    /\ sends plog = [(None, sent)]
    /\ processDelivery w3cGlobals (NewDefaultConsumer w3cGlobals) Background
         "orders"
         (Delivery.mk (Some acceptAll) (Publishing.Headers sent) "" "" 7
                      "order.created" [])
         (Some okHandler) false [] = Ok (tt, clog)
    /\ spansStarted clog = [(ctx1, cderived, cspan)]
    /\ TraceID (SpanContextFromContext ctx1) = TraceID childSpan
    /\ SpanID (SpanContextFromContext ctx1) = SpanID childSpan.
Proof.
  destruct (publish_consume_linkage w3cGlobals
              {| pTracer := None; pPropagator := None;
                 pSpanNameFormatter := None; pAttributeEnricher := None |}
              Background openChannel "orders" "order.created" false false
              sampleMessage TraceContext_round_trips)
    as (derived & span & sent & answer & plog & Hrun & Hstart & Hsend & Hlink).
  assert (Hd : derived = {| ctxSpan := childSpan; ctxValues := [] |}).
  { vm_compute in Hrun. injection Hrun as _ <-. by injection Hstart as <- _. }
  subst derived.
  destruct (Hlink eq_refl
              {| cTracer := None; cPropagator := None;
                 cSpanNameFormatter := None; cAttributeEnricher := None |}
              Background "orders"
              (Delivery.mk (Some acceptAll) (Publishing.Headers sent) "" "" 7
                           "order.created" [])
              (Some okHandler) false eq_refl)
    as (ctx1 & cderived & cspan & clog & Hc & Hs & Ht & Hsp).
  exists sent, answer, plog, ctx1, cderived, cspan, clog. auto 10.
Defined.

(** The constructors resolve every default: the tracer, the propagator
    and the span-name formatter of what they return are never nil, a
    value the caller set is kept, the enricher is left as given, and
    building again from a built configuration changes nothing. *)
Theorem constructors_fill_defaults (G : Globals) (ccfg : ConsumerConfig)
        (pcfg : PublisherConfig) :
  let c := consumerConfig (NewConsumer G ccfg) in
  let p := publisherConfig (NewPublisher G pcfg) in
  (cTracer c = Some (default (GetTracer G TracerName) (cTracer ccfg))
   /\ is_Some (cPropagator c)
   /\ cSpanNameFormatter c
      = Some (default defaultConsumeSpanName (cSpanNameFormatter ccfg))
   /\ cAttributeEnricher c = cAttributeEnricher ccfg
   /\ NewConsumer G c = NewConsumer G ccfg)
  /\ (pTracer p = Some (default (GetTracer G TracerName) (pTracer pcfg))
      /\ is_Some (pPropagator p)
      /\ pSpanNameFormatter p
         = Some (default defaultPublishSpanName (pSpanNameFormatter pcfg))
      /\ pAttributeEnricher p = pAttributeEnricher pcfg
      /\ NewPublisher G p = NewPublisher G pcfg).
Proof.
  destruct ccfg as [[?|] [?|] [?|] ?], pcfg as [[?|] [?|] [?|] ?]; simpl;
    repeat split; eauto.
Qed.

(** A traced channel obtained from a connection: when the connection
    cannot open a channel the error comes back wrapped and there is no
    channel; otherwise publishing through the traced channel never
    panics, sends once on the channel the connection opened, and returns
    what that channel answered. *)
Theorem ChannelWithTracing_spec (G : Globals) (conn : AmqpConnection)
        (config : ConnectionConfig) :
  match channelAnswer conn with
  | inr err =>
      ChannelWithTracing G (NewConnection conn config)
      = (None, Some (wrapError ("failed to create channel: " +:+ Error err) err))
  | inl ch =>
      exists tc,
        ChannelWithTracing G (NewConnection conn config) = (Some tc, None)
        /\ wrapped tc = ch
        /\ forall (ctx : Context) (exchange routingKey : string)
                  (mandatory immediate : bool) (msg : Publishing.t),
            exists sent log,
              PublishWithTracing G tc ctx exchange routingKey
                                 mandatory immediate msg []
              = Ok (publishAnswer ch exchange routingKey mandatory immediate
                                  sent, log)
              /\ sends log = [(None, sent)]
  end.
Proof.
  unfold ChannelWithTracing, NewConnection. simpl.
  destruct (channelAnswer conn) as [ch|err]; [|reflexivity].
  eexists. split; [reflexivity|]. split; [reflexivity|].
  intros ctx exchange routingKey mandatory immediate msg.
  unfold PublishWithTracing, NewChannel. simpl.
  destruct (Publish_run G (chPublisherConfig (connChannelConfig config)) ctx ch
              exchange routingKey mandatory immediate msg)
    as (derived & span & m' & _ & log & H1 & _ & _ & _ & _ & _ & H7).
  eauto.
Qed.

End EndToEnd.

(** ** What a span is started with *)

Section SpanRequests.
Import internal instrumentation.

Lemma foldl_snoc_map {A B} (f : A -> B) (l : list A) (init : list B) :
  foldl (fun acc a => acc ++ [f a]) init l = init ++ (f <$> l).
Proof.
  revert init. induction l as [|a l IH]; intros init; simpl.
  - by rewrite app_nil_r.
  - by rewrite IH, <- app_assoc.
Qed.

Lemma ExtractFromDelivery_withHeaders (G : Globals) (p : option Propagator)
      (ctx : Context) (d : Delivery.t) :
  exists ctx' headers',
    ExtractFromDelivery G p ctx d = Ok (ctx', Delivery.withHeaders headers' d).
Proof.
  unfold ExtractFromDelivery.
  destruct (Delivery.Headers d) as [m|]; [|simpl; eauto].
  destruct (ExtractContext_allocated G ctx m) as (ctx' & m' & ->).
  simpl. eauto.
Qed.

Lemma GetConsumeAttributes_withHeaders (queueName : string) (h : Table)
      (d : Delivery.t) :
  GetConsumeAttributes queueName (Delivery.withHeaders h d)
  = GetConsumeAttributes queueName d.
Proof. reflexivity. Qed.

(** The consumer span is requested with kind consumer first, then one
    option per consume attribute of the delivery, in order, then the
    options of the enricher, if any: enrichment comes after the base
    attributes and replaces none.  Without a configured formatter the
    span is named [<queue> receive], else [<routing key> receive], else
    [rabbitmq receive]. *)
Theorem processDelivery_span_request (G : Globals) (cfg : ConsumerConfig)
        (parentCtx : Context) (queueName : string) (d : Delivery.t)
        (handler : option MessageHandler) (autoAck : bool) :
  exists ctx1 d1 log,
    ExtractFromDelivery G (cPropagator (consumerConfig (NewConsumer G cfg)))
                        parentCtx d = Ok (ctx1, d1)
    /\ processDelivery G (NewConsumer G cfg) parentCtx queueName d handler
                       autoAck [] = Ok (tt, log)
    /\ spanRequests log
       = [(match cSpanNameFormatter cfg with
           | Some format => format queueName d1
           | None =>
               if decide (queueName = "") then
                 if decide (Delivery.RoutingKey d = "") then "rabbitmq receive"
                 else Delivery.RoutingKey d +:+ " receive"
               else queueName +:+ " receive"
           end,
           WithSpanKind SpanKindConsumer
           :: ((fun a => WithAttributes [a]) <$> GetConsumeAttributes queueName d)
           ++ match cAttributeEnricher cfg with
              | Some enrich => enrich ctx1 queueName d1
              | None => []
              end)].
Proof.
  destruct (ExtractFromDelivery_withHeaders G
              (cPropagator (consumerConfig (NewConsumer G cfg))) parentCtx d)
    as (ctx1 & h' & Hext).
  exists ctx1, (Delivery.withHeaders h' d).
  unfold processDelivery, bind, lift; rewrite Hext.
  unfold Delivery_Ack, Delivery_Nack, bind; cbn [fst snd].
  rewrite !GetConsumeAttributes_withHeaders, !foldl_snoc_map.
  destruct cfg as [[?|] ? [?|] [?|]], handler as [?|], autoAck; simpl;
    repeat match goal with
      | |- context [match ?x with Some _ => _ | None => _ end] =>
          destruct x eqn:?; simpl
      end;
    eexists; (split; [reflexivity|]); (split; [reflexivity|]); simpl;
    unfold defaultConsumeSpanName; rewrite ?nonEmpty_decide; simpl;
    repeat case_decide; rewrite ?app_nil_r; reflexivity.
Qed.

(** The producer span is requested with kind producer first, then one
    option per publish attribute of the caller's message, in order, then
    the options of the enricher, which is given the caller's context and
    the message as it was before injection.  Without a configured
    formatter the span is named [<exchange> publish], else
    [<routing key> publish], else [rabbitmq publish]. *)
Theorem Publish_span_request (G : Globals) (cfg : PublisherConfig)
        (ctx : Context) (channel : Channel) (exchange routingKey : string)
        (mandatory immediate : bool) (msg : Publishing.t) :
  exists answer log,
    Publish G (NewPublisher G cfg) ctx channel exchange routingKey
            mandatory immediate msg [] = Ok (answer, log)
    /\ spanRequests log
       = [(match pSpanNameFormatter cfg with
           | Some format => format exchange routingKey
           | None =>
               if decide (exchange = "") then
                 if decide (routingKey = "") then "rabbitmq publish"
                 else routingKey +:+ " publish"
               else exchange +:+ " publish"
           end,
           WithSpanKind SpanKindProducer
           :: ((fun a => WithAttributes [a])
                 <$> GetPublishAttributes exchange routingKey msg)
           ++ match pAttributeEnricher cfg with
              | Some enrich => enrich ctx exchange routingKey msg
              | None => []
              end)].
Proof.
  unfold Publish, bind, lift. rewrite !foldl_snoc_map.
  destruct cfg as [[t|] pr [f|] [en|]]; simpl;
    match goal with
    | |- context [InjectToPublishing G ?p ?c ?m] =>
        destruct (InjectToPublishing_returns G p c msg) as (m' & Hinj);
        assert (Hinj' : InjectToPublishing G p c m
                        = Ok (Publishing.withHeaders (Some m') msg))
          by (rewrite <- Hinj; destruct msg as [[?|] ? ? ? ?]; reflexivity);
        rewrite Hinj'; unfold Channel_Publish, bind; simpl
    end;
    destruct (publishAnswer _ _ _ _ _ _); simpl;
    do 2 eexists; (split; [reflexivity|]); simpl;
    unfold defaultPublishSpanName; rewrite ?nonEmpty_decide; simpl;
    repeat case_decide; rewrite ?app_nil_r; reflexivity.
Qed.

End SpanRequests.
